(** * nacl.secret: SecretBox and Aead

    A shallow embedding of [src/nacl/secret.py] (PyNaCl) and the proofs of
    its contract layer: key and nonce validation, nonce generation, the
    combined wire layout and the threading of key, nonce and associated data
    to the primitive provider.

    The two classes are written as programs of a small state-and-exception
    monad.  The state holds the attribute dictionary of the box instance
    ([self.__dict__]), the entropy the random source will hand out, and a log
    of the calls made to the collaborators the module imports
    ([nacl.bindings], [nacl.utils.random], the encoder). *)

From Stdlib Require Import Strings.Byte DecimalString.
From stdpp Require Import gmap strings list fin_maps.

Local Open Scope string_scope.
Local Open Scope list_scope.

(** ** Python values *)

(** A [bytes] object. *)
Definition bytes : Type := list byte.

#[global] Instance byte_eq_dec : EqDecision byte := Byte.byte_eq_dec.

(** The values a caller can hand to a box where the code itself looks at the
    dynamic type ([isinstance(key, bytes)]): what [encoder.decode] returns. *)
Inductive pyobj : Type :=
| PyBytes (b : bytes)
| PyStr (s : string)
| PyInt (z : Z)
| PyNone.

#[global] Instance pyobj_eq_dec : EqDecision pyobj.
Proof. solve_decision. Defined.

(** [isinstance(o, bytes)] *)
Definition isinstance_bytes (o : pyobj) : bool :=
  match o with PyBytes _ => true | _ => false end.

(** ** Exceptions *)

(** The exception classes that can leave the module: those of
    [nacl.exceptions] with their message, Python's own errors, and whatever
    an encoder raises when it cannot decode. *)
Inductive exn : Type :=
| TypeError (msg : string)          (* exc.TypeError *)
| ValueError (msg : string)         (* exc.ValueError *)
| CryptoError                       (* exc.CryptoError: the tag did not verify *)
| AttributeError (name : string)    (* reading an attribute that was never set *)
| PyTypeError                       (* Python's TypeError: len() or a slice of a non-sequence *)
| EncodingError (msg : string).     (* raised by encoder.decode *)

#[global] Instance exn_eq_dec : EqDecision exn.
Proof. solve_decision. Defined.

Inductive result (A : Type) : Type :=
| Ok (a : A)
| Raise (e : exn).
Arguments Ok {A} a.
Arguments Raise {A} e.

(** ** The collaborators *)

(** Calls that leave the module, in the order they are made. *)
Inductive event : Type :=
| CallRandom (size : nat)
| CallDecode
| CallEncode (data : bytes)
| CallSecretbox (message nonce key : pyobj)
| CallSecretboxOpen (ciphertext nonce key : pyobj)
| CallAeadEncrypt (message aad nonce key : pyobj)
| CallAeadDecrypt (ciphertext aad nonce key : pyobj).

#[global] Instance event_eq_dec : EqDecision event.
Proof. solve_decision. Defined.

(** Is the event a call of a cryptographic primitive of [nacl.bindings]? *)
Definition is_primitive_call (e : event) : bool :=
  match e with
  | CallSecretbox _ _ _ | CallSecretboxOpen _ _ _
  | CallAeadEncrypt _ _ _ _ | CallAeadDecrypt _ _ _ _ => true
  | _ => false
  end.

(** The encoder argument: a class with [encode] and [decode].  [encode] takes
    bytes; [decode] takes what the caller passed and returns a Python value or
    raises. *)
Record Encoder (T : Type) : Type := {
  encode : bytes -> T;
  decode : T -> result pyobj;
}.
Arguments encode {T} _ _.
Arguments decode {T} _ _.

(** An encoder is exact when decoding what it encoded gives back the bytes. *)
Definition encoder_exact {T} (enc : Encoder T) : Prop :=
  forall b, decode enc (encode enc b) = Ok (PyBytes b).

(** Modelled from the spec: [nacl.encoding.RawEncoder], which is not under
    src/: "default is the identity (raw bytes) strategy". *)
Definition RawEncoder : Encoder pyobj :=
  {| encode := PyBytes; decode := fun data => Ok data |}.

(** The functions of [nacl.bindings] the module calls.  They are functions of
    their arguments: a primitive has no state and draws no randomness. *)
Class Provider : Type := {
  crypto_secretbox : pyobj -> pyobj -> pyobj -> result bytes;
  crypto_secretbox_open : pyobj -> pyobj -> pyobj -> result bytes;
  crypto_aead_xchacha20poly1305_ietf_encrypt :
    pyobj -> pyobj -> pyobj -> pyobj -> result bytes;
  crypto_aead_xchacha20poly1305_ietf_decrypt :
    pyobj -> pyobj -> pyobj -> pyobj -> result bytes;
}.

(** Modelled from the spec: the size constants of [nacl.bindings], which are
    not under src/: "32 bytes for both constructs", "24 bytes for both
    constructs", and the 16 byte authenticator of the class docstring. *)
Definition crypto_secretbox_KEYBYTES : nat := 32.
Definition crypto_secretbox_NONCEBYTES : nat := 24.
Definition crypto_secretbox_MACBYTES : nat := 16.
Definition crypto_aead_xchacha20poly1305_ietf_KEYBYTES : nat := 32.
Definition crypto_aead_xchacha20poly1305_ietf_NPUBBYTES : nat := 24.
Definition crypto_aead_xchacha20poly1305_ietf_ABYTES : nat := 16.

(** Modelled from the spec: [nacl.utils.EncryptedMessage], which is not under
    src/: "a composite result exposing three views over one logical payload",
    built by [_from_parts(nonce, ciphertext, combined)]. *)
Record EncryptedMessage (T : Type) : Type := _from_parts {
  nonce : T;
  ciphertext : T;
  combined : T;
}.
Arguments _from_parts {T} _ _ _.
Arguments nonce {T} _.
Arguments ciphertext {T} _.
Arguments combined {T} _.

(** ** State and monad *)

Record state : Type := {
  attrs : gmap string pyobj;   (* self.__dict__ *)
  entropy : nat -> byte;       (* the bytes the random source will produce *)
  drawn : nat;                 (* how many of them have been handed out *)
  calls : list event;          (* the calls made so far, oldest first *)
}.

Definition M (A : Type) : Type := state -> result A * state.

Definition ret {A} (a : A) : M A := fun st => (Ok a, st).

Definition raise {A} (e : exn) : M A := fun st => (Raise e, st).

Definition bind {A B} (m : M A) (k : A -> M B) : M B :=
  fun st =>
    match m st with
    | (Ok a, st') => k a st'
    | (Raise e, st') => (Raise e, st')
    end.

Notation "x <- m ;; k" := (bind m (fun x => k))
  (at level 100, m at next level, right associativity).
Notation "m ;;; k" := (bind m (fun _ => k))
  (at level 100, right associativity).

Definition lift {A} (r : result A) : M A := fun st => (r, st).

(** The state after the calls [es] were made. *)
Definition logged (es : list event) (st : state) : state :=
  {| attrs := attrs st; entropy := entropy st; drawn := drawn st;
     calls := calls st ++ es |}.

(** The state after [size] more bytes were drawn from the random source. *)
Definition advanced (size : nat) (st : state) : state :=
  {| attrs := attrs st; entropy := entropy st; drawn := drawn st + size;
     calls := calls st |}.

Definition log (e : event) : M unit := fun st => (Ok tt, logged [e] st).

(** [self.<name>] *)
Definition getattr (name : string) : M pyobj :=
  fun st =>
    match attrs st !! name with
    | Some v => (Ok v, st)
    | None => (Raise (AttributeError name), st)
    end.

(** [self.<name> = v] *)
Definition setattr (name : string) (v : pyobj) : M unit :=
  fun st =>
    (Ok tt, {| attrs := <[name := v]> (attrs st); entropy := entropy st;
               drawn := drawn st; calls := calls st |}).

(** Modelled from the spec: [nacl.utils.random], which is not under src/:
    "random(n) -> n cryptographically secure random bytes".  The source hands
    out the next [size] bytes of its entropy and never the same ones twice. *)
Definition random (size : nat) : M bytes :=
  log (CallRandom size) ;;;
  fun st => (Ok (map (entropy st) (seq (drawn st) size)), advanced size st).

Definition encoder_encode {T} (enc : Encoder T) (data : bytes) : M T :=
  log (CallEncode data) ;;; ret (encode enc data).

Definition encoder_decode {T} (enc : Encoder T) (data : T) : M pyobj :=
  log CallDecode ;;; lift (decode enc data).

(** [len(o)] *)
Definition py_len (o : pyobj) : M nat :=
  match o with
  | PyBytes b => ret (length b)
  | PyStr s => ret (String.length s)
  | _ => raise PyTypeError
  end.

(** [o[:n]] *)
Definition py_slice_to (n : nat) (o : pyobj) : M pyobj :=
  match o with
  | PyBytes b => ret (PyBytes (take n b))
  | PyStr s => ret (PyStr (String.substring 0 n s))
  | _ => raise PyTypeError
  end.

(** [o[n:]] *)
Definition py_slice_from (n : nat) (o : pyobj) : M pyobj :=
  match o with
  | PyBytes b => ret (PyBytes (drop n b))
  | PyStr s => ret (PyStr (String.substring n (String.length s - n) s))
  | _ => raise PyTypeError
  end.

(** ["... %s ..." % n] for a number *)
Definition pct_s (n : nat) : string := NilEmpty.string_of_uint (Nat.to_uint n).

Definition key_size_message (size : nat) : string :=
  "The key must be exactly " ++ pct_s size ++ " bytes long".

Definition nonce_size_message (size : nat) : string :=
  "The nonce must be exactly " ++ pct_s size ++ " bytes long".

Notation "' ( x , y ) <- m ;; k" := (bind m (fun '(x, y) => k))
  (at level 100, m at next level, x name, y name, right associativity).

(** The calls into [nacl.bindings]: the call is logged, then the provider
    answers with bytes or raises. *)
Section Bindings.
Context {P : Provider}.

Definition bindings_crypto_secretbox (message nonce key : pyobj) : M bytes :=
  log (CallSecretbox message nonce key) ;;;
  lift (crypto_secretbox message nonce key).

Definition bindings_crypto_secretbox_open (ciphertext nonce key : pyobj) : M bytes :=
  log (CallSecretboxOpen ciphertext nonce key) ;;;
  lift (crypto_secretbox_open ciphertext nonce key).

Definition bindings_crypto_aead_xchacha20poly1305_ietf_encrypt
    (message aad nonce key : pyobj) : M bytes :=
  log (CallAeadEncrypt message aad nonce key) ;;;
  lift (crypto_aead_xchacha20poly1305_ietf_encrypt message aad nonce key).

Definition bindings_crypto_aead_xchacha20poly1305_ietf_decrypt
    (ciphertext aad nonce key : pyobj) : M bytes :=
  log (CallAeadDecrypt ciphertext aad nonce key) ;;;
  lift (crypto_aead_xchacha20poly1305_ietf_decrypt ciphertext aad nonce key).
End Bindings.

(** ** class SecretBox *)

Module SecretBox.
Section Methods.
Context {P : Provider} {T : Type}.

Definition KEY_SIZE : nat := crypto_secretbox_KEYBYTES.
Definition NONCE_SIZE : nat := crypto_secretbox_NONCEBYTES.
Definition MACBYTES : nat := crypto_secretbox_MACBYTES.

Definition __init__ (key : T) (encoder : Encoder T) : M unit :=
  key <- encoder_decode encoder key ;;
  if negb (isinstance_bytes key) then
    raise (TypeError "SecretBox must be created from 32 bytes")
  else
  len <- py_len key ;;
  if decide (len <> KEY_SIZE) then
    raise (ValueError (key_size_message KEY_SIZE))
  else
  setattr "_key" key.

Definition __bytes__ : M pyobj := getattr "_key".

Definition encrypt (plaintext : bytes) (nonce : option bytes)
    (encoder : Encoder T) : M (EncryptedMessage T) :=
  nonce <- match nonce with
           | None => random NONCE_SIZE
           | Some nonce => ret nonce
           end ;;
  if decide (length nonce <> NONCE_SIZE) then
    raise (ValueError (nonce_size_message NONCE_SIZE))
  else
  key <- getattr "_key" ;;
  ciphertext <- bindings_crypto_secretbox (PyBytes plaintext) (PyBytes nonce) key ;;
  encoded_nonce <- encoder_encode encoder nonce ;;
  encoded_ciphertext <- encoder_encode encoder ciphertext ;;
  encoded_combined <- encoder_encode encoder (nonce ++ ciphertext) ;;
  ret (_from_parts encoded_nonce encoded_ciphertext encoded_combined).

Definition decrypt (ciphertext : T) (nonce : option bytes)
    (encoder : Encoder T) : M bytes :=
  (* Decode our ciphertext *)
  ciphertext <- encoder_decode encoder ciphertext ;;
  '(nonce, ciphertext) <-
    match nonce with
    | None =>
        (* If we were given the nonce and ciphertext combined, split them. *)
        nonce <- py_slice_to NONCE_SIZE ciphertext ;;
        ciphertext <- py_slice_from NONCE_SIZE ciphertext ;;
        ret (nonce, ciphertext)
    | Some nonce => ret (PyBytes nonce, ciphertext)
    end ;;
  len <- py_len nonce ;;
  if decide (len <> NONCE_SIZE) then
    raise (ValueError (nonce_size_message NONCE_SIZE))
  else
  key <- getattr "_key" ;;
  plaintext <- bindings_crypto_secretbox_open ciphertext nonce key ;;
  ret plaintext.
End Methods.
End SecretBox.

(** ** class Aead *)

Module Aead.
Section Methods.
Context {P : Provider} {T : Type}.

Definition KEY_SIZE : nat := crypto_aead_xchacha20poly1305_ietf_KEYBYTES.
Definition NONCE_SIZE : nat := crypto_aead_xchacha20poly1305_ietf_NPUBBYTES.
Definition MACBYTES : nat := crypto_aead_xchacha20poly1305_ietf_ABYTES.

Definition __init__ (key : T) (encoder : Encoder T) : M unit :=
  key <- encoder_decode encoder key ;;
  if negb (isinstance_bytes key) then
    raise (TypeError "AEAD must be created from 32 bytes")
  else
  len <- py_len key ;;
  if decide (len <> KEY_SIZE) then
    raise (ValueError (key_size_message KEY_SIZE))
  else
  setattr "_key" key.

Definition __bytes__ : M pyobj := getattr "_key".

Definition encrypt (plaintext aad : bytes) (nonce : option bytes)
    (encoder : Encoder T) : M (EncryptedMessage T) :=
  nonce <- match nonce with
           | None => random NONCE_SIZE
           | Some nonce => ret nonce
           end ;;
  if decide (length nonce <> NONCE_SIZE) then
    raise (ValueError (nonce_size_message NONCE_SIZE))
  else
  key <- getattr "_key" ;;
  ciphertext <- bindings_crypto_aead_xchacha20poly1305_ietf_encrypt
                  (PyBytes plaintext) (PyBytes aad) (PyBytes nonce) key ;;
  encoded_nonce <- encoder_encode encoder nonce ;;
  encoded_ciphertext <- encoder_encode encoder ciphertext ;;
  encoded_combined <- encoder_encode encoder (nonce ++ ciphertext) ;;
  ret (_from_parts encoded_nonce encoded_ciphertext encoded_combined).

Definition decrypt (ciphertext : T) (aad : bytes) (nonce : option bytes)
    (encoder : Encoder T) : M bytes :=
  (* Decode our ciphertext *)
  ciphertext <- encoder_decode encoder ciphertext ;;
  '(nonce, ciphertext) <-
    match nonce with
    | None =>
        (* If we were given the nonce and ciphertext combined, split them. *)
        nonce <- py_slice_to NONCE_SIZE ciphertext ;;
        ciphertext <- py_slice_from NONCE_SIZE ciphertext ;;
        ret (nonce, ciphertext)
    | Some nonce => ret (PyBytes nonce, ciphertext)
    end ;;
  len <- py_len nonce ;;
  if decide (len <> NONCE_SIZE) then
    raise (ValueError (nonce_size_message NONCE_SIZE))
  else
  key <- getattr "_key" ;;
  plaintext <- bindings_crypto_aead_xchacha20poly1305_ietf_decrypt
                 ciphertext (PyBytes aad) nonce key ;;
  ret plaintext.
End Methods.
End Aead.


(** ** A provider to run the classes on

    Not XSalsa20-Poly1305 or XChaCha20-Poly1305: a stand-in whose answers
    have the shape of the real ones (a 16 byte tag next to a body as long as
    the message), that checks its argument types and sizes, and that opens
    what it sealed.  It is used to evaluate the classes on concrete inputs. *)

Definition model_tag (aad nonce key : bytes) : bytes :=
  take 16 (aad ++ nonce ++ key).

Definition model_checked (message aad nonce key : pyobj)
    (k : bytes -> bytes -> bytes -> bytes -> result bytes) : result bytes :=
  match message, aad, nonce, key with
  | PyBytes m, PyBytes a, PyBytes n, PyBytes key =>
      if decide (length key <> 32) then Raise (ValueError "Invalid key")
      else if decide (length n <> 24) then Raise (ValueError "Invalid nonce")
      else k m a n key
  | _, _, _, _ => Raise (TypeError "input must be bytes")
  end.

(** tag, then body: the layout of [crypto_secretbox] *)
Definition model_secretbox (message nonce key : pyobj) : result bytes :=
  model_checked message (PyBytes []) nonce key
    (fun m a n k => Ok (model_tag a n k ++ rev m)).

Definition model_secretbox_open (ciphertext nonce key : pyobj) : result bytes :=
  model_checked ciphertext (PyBytes []) nonce key
    (fun c a n k =>
       if decide (take 16 c = model_tag a n k) then Ok (rev (drop 16 c))
       else Raise CryptoError).

(** body, then tag: the layout of the AEAD construction *)
Definition model_aead_encrypt (message aad nonce key : pyobj) : result bytes :=
  model_checked message aad nonce key
    (fun m a n k => Ok (rev m ++ model_tag a n k)).

Definition model_aead_decrypt (ciphertext aad nonce key : pyobj) : result bytes :=
  model_checked ciphertext aad nonce key
    (fun c a n k =>
       if decide (drop (length c - 16) c = model_tag a n k)
       then Ok (rev (take (length c - 16) c))
       else Raise CryptoError).

Definition model_provider : Provider := {|
  crypto_secretbox := model_secretbox;
  crypto_secretbox_open := model_secretbox_open;
  crypto_aead_xchacha20poly1305_ietf_encrypt := model_aead_encrypt;
  crypto_aead_xchacha20poly1305_ietf_decrypt := model_aead_decrypt;
|}.

(** The state a program starts a box in: an object with no attribute yet,
    nothing drawn from the random source, no call made. *)
Definition new_object (source : nat -> byte) : state :=
  {| attrs := ∅; entropy := source; drawn := 0; calls := [] |}.

(** An entropy source to run on: byte [i] is [i mod 256]. *)
Definition counting_source (i : nat) : byte :=
  default x00 (Byte.of_nat (i mod 256)).

Definition zeros (n : nat) : bytes := replicate n x00.

(** The instance the concrete scenarios use: a box constructed from 32 zero
    bytes with the default encoder. *)
Definition zero_key_box : state :=
  snd (SecretBox.__init__ (PyBytes (zeros 32)) RawEncoder
         (new_object counting_source)).

(** [b"test message"] and [b"header"] *)
Definition test_message : bytes := String.list_byte_of_string "test message".
Definition header : bytes := String.list_byte_of_string "header".

(** ** The vocabulary of the specification *)

(** The error kinds of the specification, as the exceptions the code raises. *)
Definition InvalidKeyType (class : string) : exn :=
  TypeError (class ++ " must be created from 32 bytes").
Definition InvalidKeySize : exn := ValueError (key_size_message 32).
Definition InvalidNonceSize : exn := ValueError (nonce_size_message 24).

(** [st] is the state of a box that was constructed with the key [k]. *)
Definition holds_key (st : state) (k : bytes) : Prop :=
  attrs st !! "_key" = Some (PyBytes k) /\ length k = 32.

(** The provider opens what it sealed, for a key and a nonce of the required
    sizes: the contract of the primitive the facade relies on. *)
Definition secretbox_opens_sealed (P : Provider) : Prop :=
  forall m n k : bytes,
    length n = 24 -> length k = 32 ->
    exists c,
      crypto_secretbox (PyBytes m) (PyBytes n) (PyBytes k) = Ok c /\
      crypto_secretbox_open (PyBytes c) (PyBytes n) (PyBytes k) = Ok m.

Definition aead_opens_sealed (P : Provider) : Prop :=
  forall m a n k : bytes,
    length n = 24 -> length k = 32 ->
    exists c,
      crypto_aead_xchacha20poly1305_ietf_encrypt
        (PyBytes m) (PyBytes a) (PyBytes n) (PyBytes k) = Ok c /\
      crypto_aead_xchacha20poly1305_ietf_decrypt
        (PyBytes c) (PyBytes a) (PyBytes n) (PyBytes k) = Ok m.

(** No call of a cryptographic primitive was made between [st] and [st']. *)
Definition no_primitive_call_between (st st' : state) : Prop :=
  exists es, calls st' = calls st ++ es /\
             forallb (fun e => negb (is_primitive_call e)) es = true.

(** ** The methods in normal form

    What a method comes to once its input is decoded and its nonce is fixed;
    the lemmas of the next part show that the methods compute exactly
    this. *)

(** The state after [SecretBox.encrypt] went through with nonce [n] and
    ciphertext [c]. *)
Definition after_secretbox (p n : bytes) (key : pyobj) (c : bytes) (st : state) : state :=
  logged [CallSecretbox (PyBytes p) (PyBytes n) key;
          CallEncode n; CallEncode c; CallEncode (n ++ c)] st.

Definition after_aead_encrypt (p a n : bytes) (key : pyobj) (c : bytes) (st : state) : state :=
  logged [CallAeadEncrypt (PyBytes p) (PyBytes a) (PyBytes n) key;
          CallEncode n; CallEncode c; CallEncode (n ++ c)] st.

(** What [encrypt] returns for nonce [n] and ciphertext [c]. *)
Definition message_of {T} (encoder : Encoder T) (n c : bytes) : EncryptedMessage T :=
  _from_parts (encode encoder n) (encode encoder c) (encode encoder (n ++ c)).

(** [decrypt] once the input is decoded and the nonce is known: the size
    check, then the primitive. *)
Definition secretbox_open_checked {P : Provider} (c nonce : pyobj) (len : nat) (st : state)
  : result bytes * state :=
  if decide (len = 24) then
    match attrs st !! "_key" with
    | None => (Raise (AttributeError "_key"), logged [CallDecode] st)
    | Some key =>
        (crypto_secretbox_open c nonce key,
         logged [CallDecode; CallSecretboxOpen c nonce key] st)
    end
  else (Raise InvalidNonceSize, logged [CallDecode] st).

Definition aead_decrypt_checked {P : Provider} (c : pyobj) (a : bytes) (nonce : pyobj) (len : nat)
    (st : state) : result bytes * state :=
  if decide (len = 24) then
    match attrs st !! "_key" with
    | None => (Raise (AttributeError "_key"), logged [CallDecode] st)
    | Some key =>
        (crypto_aead_xchacha20poly1305_ietf_decrypt c (PyBytes a) nonce key,
         logged [CallDecode; CallAeadDecrypt c (PyBytes a) nonce key] st)
    end
  else (Raise InvalidNonceSize, logged [CallDecode] st).

(** What [SecretBox.encrypt] returns on the concrete scenario, with the
    default encoder: the combined field is the nonce bytes followed by the
    ciphertext bytes. *)
Definition test_message_sealed : EncryptedMessage pyobj :=
  message_of RawEncoder (zeros 24)
    (model_tag [] (zeros 24) (zeros 32) ++ rev test_message).

(** ** Sequences of calls on one instance *)

(** A call of a method of a box, with its arguments. *)
Inductive method_call (T : Type) : Type :=
| DoSecretBoxEncrypt (plaintext : bytes) (nonce : option bytes) (encoder : Encoder T)
| DoSecretBoxDecrypt (ciphertext : T) (nonce : option bytes) (encoder : Encoder T)
| DoAeadEncrypt (plaintext aad : bytes) (nonce : option bytes) (encoder : Encoder T)
| DoAeadDecrypt (ciphertext : T) (aad : bytes) (nonce : option bytes) (encoder : Encoder T)
| DoBytes.
Arguments DoSecretBoxEncrypt {T} _ _ _.
Arguments DoSecretBoxDecrypt {T} _ _ _.
Arguments DoAeadEncrypt {T} _ _ _ _.
Arguments DoAeadDecrypt {T} _ _ _ _.
Arguments DoBytes {T}.

(** The state a call leaves behind, whether it returned or raised. *)
Definition perform {P : Provider} {T} (call : method_call T) (st : state) : state :=
  match call with
  | DoSecretBoxEncrypt p nonce encoder => snd (SecretBox.encrypt p nonce encoder st)
  | DoSecretBoxDecrypt c nonce encoder => snd (SecretBox.decrypt c nonce encoder st)
  | DoAeadEncrypt p aad nonce encoder => snd (Aead.encrypt p aad nonce encoder st)
  | DoAeadDecrypt c aad nonce encoder => snd (Aead.decrypt c aad nonce encoder st)
  | DoBytes => snd (SecretBox.__bytes__ st)
  end.

(** The calls of a list, one after the other. *)
Definition perform_all {P : Provider} {T} (calls : list (method_call T)) (st : state)
  : state :=
  fold_left (fun st call => perform call st) calls st.

(** A program that leaves the attributes of the instance as they were. *)
Definition preserves_attrs {A} (m : M A) : Prop :=
  forall st, attrs (snd (m st)) = attrs st.

(** ** Associated data *)






(** ** Further vocabulary *)

(** A program that leaves the random source as it was: nothing is drawn. *)
Definition leaves_source {A} (m : M A) : Prop :=
  forall st, drawn (snd (m st)) = drawn st /\ entropy (snd (m st)) = entropy st.

(** An encoder to run the classes on besides the default one: a value is
    encoded as its bytes followed by the same bytes reversed, and decoding
    checks that shape.  It stands in for the encoders of [nacl.encoding]
    (hex, base64), which can fail to decode. *)
Definition mirror_encode (data : bytes) : pyobj := PyBytes (data ++ rev data).

Definition mirror_decode (data : pyobj) : result pyobj :=
  match data with
  | PyBytes b =>
      let half := take (length b / 2) b in
      if decide (b = half ++ rev half) then Ok (PyBytes half)
      else Raise (EncodingError "not a mirrored value")
  | _ => Raise (EncodingError "not bytes")
  end.

Definition MirrorEncoder : Encoder pyobj :=
  {| encode := mirror_encode; decode := mirror_decode |}.


(** * Proofs *)

(** ** Running a program step by step *)

Lemma bind_ok {A B} (m : M A) (k : A -> M B) st a st' :
  m st = (Ok a, st') -> bind m k st = k a st'.
Proof. unfold bind. intros ->. reflexivity. Qed.

Lemma bind_raise {A B} (m : M A) (k : A -> M B) st e st' :
  m st = (Raise e, st') -> bind m k st = (Raise e, st').
Proof. unfold bind. intros ->. reflexivity. Qed.

Lemma logged_logged es1 es2 st :
  logged es2 (logged es1 st) = logged (es1 ++ es2) st.
Proof. unfold logged. simpl. by rewrite (assoc_L (++)). Qed.

Lemma encoder_decode_run {T} (enc : Encoder T) (data : T) st :
  encoder_decode enc data st = (decode enc data, logged [CallDecode] st).
Proof. reflexivity. Qed.

Lemma encoder_encode_run {T} (enc : Encoder T) (data : bytes) st :
  encoder_encode enc data st = (Ok (encode enc data), logged [CallEncode data] st).
Proof. reflexivity. Qed.

Lemma random_run size st :
  random size st =
  (Ok (map (entropy st) (seq (drawn st) size)),
   advanced size (logged [CallRandom size] st)).
Proof. reflexivity. Qed.

Lemma random_length size st bs st' :
  random size st = (Ok bs, st') -> length bs = size.
Proof.
  rewrite random_run. intros [= <- _]. by rewrite length_map, length_seq.
Qed.

(** The messages the two size checks raise with. *)
Lemma size_messages :
  InvalidKeySize = ValueError "The key must be exactly 32 bytes long" /\
  InvalidNonceSize = ValueError "The nonce must be exactly 24 bytes long" /\
  ValueError (key_size_message (SecretBox.KEY_SIZE)) = InvalidKeySize /\
  ValueError (key_size_message (Aead.KEY_SIZE)) = InvalidKeySize /\
  ValueError (nonce_size_message (SecretBox.NONCE_SIZE)) = InvalidNonceSize /\
  ValueError (nonce_size_message (Aead.NONCE_SIZE)) = InvalidNonceSize.
Proof. repeat split; reflexivity. Qed.

(** ** The constructors *)

Section Constructor.
Context {T : Type} (key : T) (encoder : Encoder T) (st : state).

Lemma SecretBox_init_decode_raises e :
  decode encoder key = Raise e ->
  SecretBox.__init__ key encoder st = (Raise e, logged [CallDecode] st).
Proof.
  intros H. unfold SecretBox.__init__.
  apply bind_raise. by rewrite encoder_decode_run, H.
Qed.

Lemma SecretBox_init_not_bytes o :
  decode encoder key = Ok o -> isinstance_bytes o = false ->
  SecretBox.__init__ key encoder st =
    (Raise (InvalidKeyType "SecretBox"), logged [CallDecode] st).
Proof.
  intros H Ho. unfold SecretBox.__init__.
  erewrite bind_ok by (rewrite encoder_decode_run, H; reflexivity).
  by rewrite Ho.
Qed.

Lemma SecretBox_init_bytes k :
  decode encoder key = Ok (PyBytes k) ->
  SecretBox.__init__ key encoder st =
    if decide (length k = 32)
    then setattr "_key" (PyBytes k) (logged [CallDecode] st)
    else (Raise InvalidKeySize, logged [CallDecode] st).
Proof.
  intros H. unfold SecretBox.__init__.
  erewrite bind_ok by (rewrite encoder_decode_run, H; reflexivity).
  cbn -[decide]. unfold bind, ret. cbn -[decide].
  change SecretBox.KEY_SIZE with 32.
  repeat case_decide; try lia; reflexivity.
Qed.

Lemma Aead_init_decode_raises e :
  decode encoder key = Raise e ->
  Aead.__init__ key encoder st = (Raise e, logged [CallDecode] st).
Proof.
  intros H. unfold Aead.__init__.
  apply bind_raise. by rewrite encoder_decode_run, H.
Qed.

Lemma Aead_init_not_bytes o :
  decode encoder key = Ok o -> isinstance_bytes o = false ->
  Aead.__init__ key encoder st =
    (Raise (InvalidKeyType "AEAD"), logged [CallDecode] st).
Proof.
  intros H Ho. unfold Aead.__init__.
  erewrite bind_ok by (rewrite encoder_decode_run, H; reflexivity).
  by rewrite Ho.
Qed.

Lemma Aead_init_bytes k :
  decode encoder key = Ok (PyBytes k) ->
  Aead.__init__ key encoder st =
    if decide (length k = 32)
    then setattr "_key" (PyBytes k) (logged [CallDecode] st)
    else (Raise InvalidKeySize, logged [CallDecode] st).
Proof.
  intros H. unfold Aead.__init__.
  erewrite bind_ok by (rewrite encoder_decode_run, H; reflexivity).
  cbn -[decide]. unfold bind, ret. cbn -[decide].
  change Aead.KEY_SIZE with 32.
  repeat case_decide; try lia; reflexivity.
Qed.
End Constructor.

(** ** Normal forms of the methods *)

(** Unfolds the monad and the logged calls of a method body. *)
Ltac unfold_monad :=
  unfold bind, ret, raise, lift, log, getattr,
    bindings_crypto_secretbox, bindings_crypto_secretbox_open,
    bindings_crypto_aead_xchacha20poly1305_ietf_encrypt,
    bindings_crypto_aead_xchacha20poly1305_ietf_decrypt,
    encoder_encode, encoder_decode, py_len, py_slice_to, py_slice_from;
  cbn -[decide take drop].

(** A logged call leaves the attributes of the instance alone. *)
Ltac attrs_logged :=
  repeat match goal with
         | |- context [attrs (logged ?es ?st)] =>
             change (attrs (logged es st)) with (attrs st)
         end.

(** Decides the size checks that are left in the goal. *)
Ltac size_checks :=
  change SecretBox.NONCE_SIZE with 24 in *;
  change Aead.NONCE_SIZE with 24 in *;
  repeat case_decide; try lia; try reflexivity; attrs_logged.

Section NormalForms.
Context {P : Provider} {T : Type} (encoder : Encoder T).

Lemma SecretBox_encrypt_bad_nonce p n st :
  length n <> 24 ->
  SecretBox.encrypt p (Some n) encoder st = (Raise InvalidNonceSize, st).
Proof. intros Hn. unfold SecretBox.encrypt. unfold_monad. size_checks. Qed.

Lemma SecretBox_encrypt_explicit p n st :
  length n = 24 ->
  SecretBox.encrypt p (Some n) encoder st =
    match attrs st !! "_key" with
    | None => (Raise (AttributeError "_key"), st)
    | Some key =>
        match crypto_secretbox (PyBytes p) (PyBytes n) key with
        | Raise e => (Raise e, logged [CallSecretbox (PyBytes p) (PyBytes n) key] st)
        | Ok c => (Ok (message_of encoder n c), after_secretbox p n key c st)
        end
    end.
Proof.
  intros Hn. unfold SecretBox.encrypt. unfold_monad. size_checks.
  destruct (attrs st !! "_key") as [key|]; [|reflexivity].
  destruct (crypto_secretbox _ _ _) as [c|e]; [|reflexivity].
  unfold after_secretbox. by rewrite !logged_logged.
Qed.

Lemma SecretBox_encrypt_omitted p st :
  SecretBox.encrypt p None encoder st =
    SecretBox.encrypt p (Some (map (entropy st) (seq (drawn st) 24))) encoder
      (advanced 24 (logged [CallRandom 24] st)).
Proof. reflexivity. Qed.

Lemma Aead_encrypt_bad_nonce p a n st :
  length n <> 24 ->
  Aead.encrypt p a (Some n) encoder st = (Raise InvalidNonceSize, st).
Proof. intros Hn. unfold Aead.encrypt. unfold_monad. size_checks. Qed.

Lemma Aead_encrypt_explicit p a n st :
  length n = 24 ->
  Aead.encrypt p a (Some n) encoder st =
    match attrs st !! "_key" with
    | None => (Raise (AttributeError "_key"), st)
    | Some key =>
        match crypto_aead_xchacha20poly1305_ietf_encrypt
                (PyBytes p) (PyBytes a) (PyBytes n) key with
        | Raise e =>
            (Raise e, logged [CallAeadEncrypt (PyBytes p) (PyBytes a) (PyBytes n) key] st)
        | Ok c => (Ok (message_of encoder n c), after_aead_encrypt p a n key c st)
        end
    end.
Proof.
  intros Hn. unfold Aead.encrypt. unfold_monad. size_checks.
  destruct (attrs st !! "_key") as [key|]; [|reflexivity].
  destruct (crypto_aead_xchacha20poly1305_ietf_encrypt _ _ _ _) as [c|e]; [|reflexivity].
  unfold after_aead_encrypt. by rewrite !logged_logged.
Qed.

Lemma Aead_encrypt_omitted p a st :
  Aead.encrypt p a None encoder st =
    Aead.encrypt p a (Some (map (entropy st) (seq (drawn st) 24))) encoder
      (advanced 24 (logged [CallRandom 24] st)).
Proof. reflexivity. Qed.

Lemma SecretBox_decrypt_decode_raises c nonce e st :
  decode encoder c = Raise e ->
  SecretBox.decrypt c nonce encoder st = (Raise e, logged [CallDecode] st).
Proof.
  intros H. unfold SecretBox.decrypt. apply bind_raise.
  by rewrite encoder_decode_run, H.
Qed.

Lemma SecretBox_decrypt_explicit c n raw st :
  decode encoder c = Ok raw ->
  SecretBox.decrypt c (Some n) encoder st =
    secretbox_open_checked raw (PyBytes n) (length n) st.
Proof.
  intros H. unfold SecretBox.decrypt, secretbox_open_checked.
  erewrite bind_ok by (rewrite encoder_decode_run, H; reflexivity).
  unfold_monad. size_checks.
  destruct (attrs st !! "_key") as [key|]; [|reflexivity].
  rewrite !logged_logged. by destruct (crypto_secretbox_open _ _ _).
Qed.

Lemma SecretBox_decrypt_combined c raw st :
  decode encoder c = Ok (PyBytes raw) ->
  SecretBox.decrypt c None encoder st =
    secretbox_open_checked (PyBytes (drop 24 raw)) (PyBytes (take 24 raw))
      (length (take 24 raw)) st.
Proof.
  intros H. unfold SecretBox.decrypt, secretbox_open_checked.
  erewrite bind_ok by (rewrite encoder_decode_run, H; reflexivity).
  unfold_monad. size_checks.
  destruct (attrs st !! "_key") as [key|]; [|reflexivity].
  rewrite !logged_logged. by destruct (crypto_secretbox_open _ _ _).
Qed.

Lemma Aead_decrypt_decode_raises c a nonce e st :
  decode encoder c = Raise e ->
  Aead.decrypt c a nonce encoder st = (Raise e, logged [CallDecode] st).
Proof.
  intros H. unfold Aead.decrypt. apply bind_raise.
  by rewrite encoder_decode_run, H.
Qed.

Lemma Aead_decrypt_explicit c a n raw st :
  decode encoder c = Ok raw ->
  Aead.decrypt c a (Some n) encoder st =
    aead_decrypt_checked raw a (PyBytes n) (length n) st.
Proof.
  intros H. unfold Aead.decrypt, aead_decrypt_checked.
  erewrite bind_ok by (rewrite encoder_decode_run, H; reflexivity).
  unfold_monad. size_checks.
  destruct (attrs st !! "_key") as [key|]; [|reflexivity].
  rewrite !logged_logged. by destruct (crypto_aead_xchacha20poly1305_ietf_decrypt _ _ _ _).
Qed.

Lemma Aead_decrypt_combined c a raw st :
  decode encoder c = Ok (PyBytes raw) ->
  Aead.decrypt c a None encoder st =
    aead_decrypt_checked (PyBytes (drop 24 raw)) a (PyBytes (take 24 raw))
      (length (take 24 raw)) st.
Proof.
  intros H. unfold Aead.decrypt, aead_decrypt_checked.
  erewrite bind_ok by (rewrite encoder_decode_run, H; reflexivity).
  unfold_monad. size_checks.
  destruct (attrs st !! "_key") as [key|]; [|reflexivity].
  rewrite !logged_logged. by destruct (crypto_aead_xchacha20poly1305_ietf_decrypt _ _ _ _).
Qed.
End NormalForms.

(** ** The provider the classes are run on *)

Lemma model_tag_length a n k : length n = 24 -> length (model_tag a n k) = 16.
Proof.
  intros Hn. unfold model_tag. rewrite length_take, !length_app. lia.
Qed.

Lemma model_provider_secretbox : secretbox_opens_sealed model_provider.
Proof.
  intros m n k Hn Hk. exists (model_tag [] n k ++ rev m).
  pose proof (model_tag_length [] n k Hn) as Htag.
  cbn -[decide take drop model_tag]. unfold model_secretbox, model_secretbox_open, model_checked.
  repeat case_decide; try lia; split; try reflexivity.
  - by rewrite <- Htag, drop_app_length, rev_involutive.
  - exfalso. by rewrite <- Htag, take_app_length in *.
Qed.

Lemma model_provider_aead : aead_opens_sealed model_provider.
Proof.
  intros m a n k Hn Hk. exists (rev m ++ model_tag a n k).
  pose proof (model_tag_length a n k Hn) as Htag.
  assert (length (rev m ++ model_tag a n k) - 16 = length (rev m)) as Hlen
    by (rewrite length_app; lia).
  cbn -[decide take drop model_tag]. unfold model_aead_encrypt, model_aead_decrypt, model_checked.
  repeat case_decide; try lia; split; try reflexivity.
  - by rewrite Hlen, take_app_length, rev_involutive.
  - exfalso. by rewrite Hlen, drop_app_length in *.
Qed.

Lemma zero_key_box_holds_key : holds_key zero_key_box (zeros 32).
Proof. split; reflexivity. Qed.

Lemma RawEncoder_exact : encoder_exact RawEncoder.
Proof. intros b. reflexivity. Qed.

(** ** Encryption that goes through *)

Section EncryptInversion.
Context {P : Provider} {T : Type} (encoder : Encoder T).

(** The nonce [encrypt] works with: the one given, or the next bytes of the
    random source, and the state the rest of the method starts from. *)
Lemma SecretBox_encrypt_ok_inv p nonce_arg st msg st' :
  SecretBox.encrypt p nonce_arg encoder st = (Ok msg, st') ->
  exists n c key st0,
    length n = 24 /\
    (nonce_arg = Some n /\ st0 = st \/
     nonce_arg = None /\ n = map (entropy st) (seq (drawn st) 24) /\
       st0 = advanced 24 (logged [CallRandom 24] st)) /\
    attrs st !! "_key" = Some key /\
    crypto_secretbox (PyBytes p) (PyBytes n) key = Ok c /\
    msg = message_of encoder n c /\
    st' = after_secretbox p n key c st0.
Proof.
  destruct nonce_arg as [n|].
  - destruct (decide (length n = 24)) as [Hn|Hn].
    + rewrite SecretBox_encrypt_explicit by done.
      destruct (attrs st !! "_key") as [key|] eqn:Hkey; [|discriminate].
      destruct (crypto_secretbox _ _ _) as [c|e] eqn:Hc; [|discriminate].
      intros [= <- <-]. exists n, c, key, st. eauto 10.
    + rewrite SecretBox_encrypt_bad_nonce by done. discriminate.
  - rewrite SecretBox_encrypt_omitted.
    set (n := map (entropy st) (seq (drawn st) 24)).
    assert (length n = 24) as Hn by (subst n; by rewrite length_map, length_seq).
    rewrite SecretBox_encrypt_explicit by done.
    change (attrs (advanced 24 (logged [CallRandom 24] st))) with (attrs st).
    destruct (attrs st !! "_key") as [key|] eqn:Hkey; [|discriminate].
    destruct (crypto_secretbox _ _ _) as [c|e] eqn:Hc; [|discriminate].
    intros [= <- <-]. exists n, c, key, (advanced 24 (logged [CallRandom 24] st)).
    eauto 10.
Qed.

Lemma Aead_encrypt_ok_inv p a nonce_arg st msg st' :
  Aead.encrypt p a nonce_arg encoder st = (Ok msg, st') ->
  exists n c key st0,
    length n = 24 /\
    (nonce_arg = Some n /\ st0 = st \/
     nonce_arg = None /\ n = map (entropy st) (seq (drawn st) 24) /\
       st0 = advanced 24 (logged [CallRandom 24] st)) /\
    attrs st !! "_key" = Some key /\
    crypto_aead_xchacha20poly1305_ietf_encrypt
      (PyBytes p) (PyBytes a) (PyBytes n) key = Ok c /\
    msg = message_of encoder n c /\
    st' = after_aead_encrypt p a n key c st0.
Proof.
  destruct nonce_arg as [n|].
  - destruct (decide (length n = 24)) as [Hn|Hn].
    + rewrite Aead_encrypt_explicit by done.
      destruct (attrs st !! "_key") as [key|] eqn:Hkey; [|discriminate].
      destruct (crypto_aead_xchacha20poly1305_ietf_encrypt _ _ _ _) as [c|e] eqn:Hc;
        [|discriminate].
      intros [= <- <-]. exists n, c, key, st. eauto 10.
    + rewrite Aead_encrypt_bad_nonce by done. discriminate.
  - rewrite Aead_encrypt_omitted.
    set (n := map (entropy st) (seq (drawn st) 24)).
    assert (length n = 24) as Hn by (subst n; by rewrite length_map, length_seq).
    rewrite Aead_encrypt_explicit by done.
    change (attrs (advanced 24 (logged [CallRandom 24] st))) with (attrs st).
    destruct (attrs st !! "_key") as [key|] eqn:Hkey; [|discriminate].
    destruct (crypto_aead_xchacha20poly1305_ietf_encrypt _ _ _ _) as [c|e] eqn:Hc;
      [|discriminate].
    intros [= <- <-]. exists n, c, key, (advanced 24 (logged [CallRandom 24] st)).
    eauto 10.
Qed.
End EncryptInversion.

(** ** Round trip *)

Lemma holds_key_logged es st k : holds_key st k -> holds_key (logged es st) k.
Proof. intros H. exact H. Qed.

(** C1: for every key of KEY_SIZE bytes, nonce of NONCE_SIZE bytes and
    plaintext, [SecretBox.decrypt] of the ciphertext that
    [SecretBox.encrypt] produced, with the same nonce and a box holding the
    same key, returns the plaintext; for [Aead] the same holds for every aad
    given to both.  The provider is one that opens what it sealed, the
    encoder one that decodes what it encoded. *)
Theorem C1_round_trip (P : Provider) :
  secretbox_opens_sealed P -> aead_opens_sealed P ->
  forall T (encoder : Encoder T), encoder_exact encoder ->
  forall (k n p : bytes) (st : state),
    holds_key st k -> length n = 24 ->
    (exists msg st1,
        SecretBox.encrypt p (Some n) encoder st = (Ok msg, st1) /\
        holds_key st1 k /\
        forall st2, holds_key st2 k ->
          fst (SecretBox.decrypt (ciphertext msg) (Some n) encoder st2) = Ok p) /\
    (forall aad, exists msg st1,
        Aead.encrypt p aad (Some n) encoder st = (Ok msg, st1) /\
        holds_key st1 k /\
        forall st2, holds_key st2 k ->
          fst (Aead.decrypt (ciphertext msg) aad (Some n) encoder st2) = Ok p).
Proof.
  intros Hsb Haead T encoder Hexact k n p st Hkey Hn.
  pose proof Hkey as [Hk Hlen]. split.
  - destruct (Hsb p n k Hn Hlen) as (c & Hseal & Hopen).
    exists (message_of encoder n c), (after_secretbox p n (PyBytes k) c st).
    rewrite SecretBox_encrypt_explicit, Hk, Hseal by done.
    split; [done|]. split; [by apply holds_key_logged|].
    intros st2 [Hk2 _]. cbn [ciphertext message_of].
    rewrite (SecretBox_decrypt_explicit _ _ _ (PyBytes c)) by apply Hexact.
    unfold secretbox_open_checked. rewrite decide_True, Hk2 by done.
    exact Hopen.
  - intros aad. destruct (Haead p aad n k Hn Hlen) as (c & Hseal & Hopen).
    exists (message_of encoder n c), (after_aead_encrypt p aad n (PyBytes k) c st).
    rewrite Aead_encrypt_explicit, Hk, Hseal by done.
    split; [done|]. split; [by apply holds_key_logged|].
    intros st2 [Hk2 _]. cbn [ciphertext message_of].
    rewrite (Aead_decrypt_explicit _ _ _ _ (PyBytes c)) by apply Hexact.
    unfold aead_decrypt_checked. rewrite decide_True, Hk2 by done.
    exact Hopen.
Qed.

(** The concrete scenario: key of 32 zero bytes, nonce of 24 zero bytes,
    plaintext [b"test message"], default encoder. *)
Lemma C1_round_trip_witness :
  secretbox_opens_sealed model_provider /\
  aead_opens_sealed model_provider /\
  encoder_exact RawEncoder /\
  holds_key zero_key_box (zeros 32) /\
  length (zeros 24) = 24 /\
  (exists msg st1,
      SecretBox.encrypt (P:=model_provider) test_message (Some (zeros 24))
        RawEncoder zero_key_box = (Ok msg, st1) /\
      holds_key st1 (zeros 32) /\
      forall st2, holds_key st2 (zeros 32) ->
        fst (SecretBox.decrypt (P:=model_provider) (ciphertext msg) (Some (zeros 24))
               RawEncoder st2) = Ok test_message) /\
  (forall aad, exists msg st1,
      Aead.encrypt (P:=model_provider) test_message aad (Some (zeros 24))
        RawEncoder zero_key_box = (Ok msg, st1) /\
      holds_key st1 (zeros 32) /\
      forall st2, holds_key st2 (zeros 32) ->
        fst (Aead.decrypt (P:=model_provider) (ciphertext msg) aad (Some (zeros 24))
               RawEncoder st2) = Ok test_message).
Proof.
  split; [exact model_provider_secretbox|].
  split; [exact model_provider_aead|].
  split; [exact RawEncoder_exact|].
  split; [exact zero_key_box_holds_key|].
  split; [reflexivity|].
  exact (C1_round_trip model_provider model_provider_secretbox model_provider_aead
           pyobj RawEncoder RawEncoder_exact (zeros 32) (zeros 24) test_message
           zero_key_box zero_key_box_holds_key eq_refl).
Defined.

(** ** The combined form *)

(** C2: whenever [SecretBox.encrypt] or [Aead.encrypt] succeeds, there are
    raw bytes [n] (the nonce, NONCE_SIZE long) and [c] (what the primitive
    returned) such that the three fields of the message are the encodings of
    [n], of [c] and of [n ++ c]: the combined form is the nonce immediately
    followed by the ciphertext, with nothing between or before them.  With an
    exact encoder the combined field decodes to the decoded nonce followed by
    the decoded ciphertext. *)
Theorem C2_combined_is_nonce_then_ciphertext (P : Provider) T (encoder : Encoder T)
    (p : bytes) (aad : bytes) (nonce_arg : option bytes) (st st' : state)
    (msg : EncryptedMessage T) :
  SecretBox.encrypt p nonce_arg encoder st = (Ok msg, st') \/
  Aead.encrypt p aad nonce_arg encoder st = (Ok msg, st') ->
  exists n c key,
    length n = 24 /\
    (crypto_secretbox (PyBytes p) (PyBytes n) key = Ok c \/
     crypto_aead_xchacha20poly1305_ietf_encrypt
       (PyBytes p) (PyBytes aad) (PyBytes n) key = Ok c) /\
    nonce msg = encode encoder n /\
    ciphertext msg = encode encoder c /\
    combined msg = encode encoder (n ++ c) /\
    (encoder_exact encoder ->
     decode encoder (nonce msg) = Ok (PyBytes n) /\
     decode encoder (ciphertext msg) = Ok (PyBytes c) /\
     decode encoder (combined msg) = Ok (PyBytes (n ++ c))).
Proof.
  intros [H|H].
  - apply SecretBox_encrypt_ok_inv in H
      as (n & c & key & st0 & Hn & _ & _ & Hc & -> & _).
    exists n, c, key. cbn [nonce ciphertext combined message_of].
    repeat split; auto.
  - apply Aead_encrypt_ok_inv in H
      as (n & c & key & st0 & Hn & _ & _ & Hc & -> & _).
    exists n, c, key. cbn [nonce ciphertext combined message_of].
    repeat split; auto.
Qed.

Lemma C2_combined_witness :
  SecretBox.encrypt (P:=model_provider) test_message (Some (zeros 24)) RawEncoder
    zero_key_box
  = (Ok test_message_sealed,
     after_secretbox test_message (zeros 24) (PyBytes (zeros 32))
       (model_tag [] (zeros 24) (zeros 32) ++ rev test_message) zero_key_box) /\
  combined test_message_sealed =
    PyBytes (zeros 24 ++ model_tag [] (zeros 24) (zeros 32) ++ rev test_message) /\
  exists n c key,
    length n = 24 /\
    (@crypto_secretbox model_provider (PyBytes test_message) (PyBytes n) key = Ok c \/
     @crypto_aead_xchacha20poly1305_ietf_encrypt model_provider
       (PyBytes test_message) (PyBytes []) (PyBytes n) key = Ok c) /\
    nonce test_message_sealed = encode RawEncoder n /\
    ciphertext test_message_sealed = encode RawEncoder c /\
    combined test_message_sealed = encode RawEncoder (n ++ c) /\
    (encoder_exact RawEncoder ->
     decode RawEncoder (nonce test_message_sealed) = Ok (PyBytes n) /\
     decode RawEncoder (ciphertext test_message_sealed) = Ok (PyBytes c) /\
     decode RawEncoder (combined test_message_sealed) = Ok (PyBytes (n ++ c))).
Proof.
  assert (SecretBox.encrypt (P:=model_provider) test_message (Some (zeros 24))
            RawEncoder zero_key_box
          = (Ok test_message_sealed,
             after_secretbox test_message (zeros 24) (PyBytes (zeros 32))
               (model_tag [] (zeros 24) (zeros 32) ++ rev test_message) zero_key_box))
    as Hrun by (vm_compute; reflexivity).
  split; [exact Hrun|]. split; [reflexivity|].
  exact (C2_combined_is_nonce_then_ciphertext model_provider pyobj RawEncoder
           test_message [] (Some (zeros 24)) zero_key_box _ test_message_sealed
           (or_introl Hrun)).
Defined.

(** C3: [decrypt] of the combined form, with the nonce omitted, on a box
    holding the same key, splits off the first NONCE_SIZE bytes as the nonce,
    hands the rest to the primitive as the ciphertext, and returns the
    plaintext.  [nonce_arg] is the nonce given to [encrypt]: omitted, or
    NONCE_SIZE bytes. *)
Theorem C3_decrypt_combined (P : Provider) :
  secretbox_opens_sealed P -> aead_opens_sealed P ->
  forall T (encoder : Encoder T), encoder_exact encoder ->
  forall (k p : bytes) (nonce_arg : option bytes) (st : state),
    holds_key st k ->
    (forall n, nonce_arg = Some n -> length n = 24) ->
    (exists msg st1 n c,
        SecretBox.encrypt p nonce_arg encoder st = (Ok msg, st1) /\
        combined msg = encode encoder (n ++ c) /\ length n = 24 /\
        forall st2, holds_key st2 k ->
          SecretBox.decrypt (combined msg) None encoder st2 =
            (Ok p, logged [CallDecode;
                           CallSecretboxOpen (PyBytes c) (PyBytes n) (PyBytes k)] st2)) /\
    (forall aad, exists msg st1 n c,
        Aead.encrypt p aad nonce_arg encoder st = (Ok msg, st1) /\
        combined msg = encode encoder (n ++ c) /\ length n = 24 /\
        forall st2, holds_key st2 k ->
          Aead.decrypt (combined msg) aad None encoder st2 =
            (Ok p, logged [CallDecode;
                           CallAeadDecrypt (PyBytes c) (PyBytes aad) (PyBytes n)
                             (PyBytes k)] st2)).
Proof.
  intros Hsb Haead T encoder Hexact k p nonce_arg st Hkey Hnonce.
  pose proof Hkey as [Hk Hlen].
  (* the nonce the method works with, and the state it continues from *)
  assert (exists n st0, length n = 24 /\ attrs st0 = attrs st /\
            (forall a, Aead.encrypt p a nonce_arg encoder st
                       = Aead.encrypt p a (Some n) encoder st0) /\
            SecretBox.encrypt p nonce_arg encoder st
            = SecretBox.encrypt p (Some n) encoder st0)
    as (n & st0 & Hn & Hattrs & HA & HS).
  { destruct nonce_arg as [n|].
    - exists n, st. auto.
    - exists (map (entropy st) (seq (drawn st) 24)),
        (advanced 24 (logged [CallRandom 24] st)).
      rewrite length_map, length_seq. auto. }
  split.
  - destruct (Hsb p n k Hn Hlen) as (c & Hseal & Hopen).
    exists (message_of encoder n c), (after_secretbox p n (PyBytes k) c st0), n, c.
    rewrite HS, SecretBox_encrypt_explicit, Hattrs, Hk, Hseal by done.
    repeat split; try done.
    intros st2 [Hk2 _]. cbn [combined message_of].
    rewrite (SecretBox_decrypt_combined _ _ (n ++ c)) by apply Hexact.
    rewrite <- Hn, take_app_length, drop_app_length, Hn.
    unfold secretbox_open_checked. rewrite decide_True, Hk2 by done.
    by rewrite Hopen.
  - intros aad. destruct (Haead p aad n k Hn Hlen) as (c & Hseal & Hopen).
    exists (message_of encoder n c), (after_aead_encrypt p aad n (PyBytes k) c st0), n, c.
    rewrite HA, Aead_encrypt_explicit, Hattrs, Hk, Hseal by done.
    repeat split; try done.
    intros st2 [Hk2 _]. cbn [combined message_of].
    rewrite (Aead_decrypt_combined _ _ _ (n ++ c)) by apply Hexact.
    rewrite <- Hn, take_app_length, drop_app_length, Hn.
    unfold aead_decrypt_checked. rewrite decide_True, Hk2 by done.
    by rewrite Hopen.
Qed.

(** The scenario of C3 with the nonce drawn by [encrypt] itself. *)
Lemma C3_decrypt_combined_witness :
  secretbox_opens_sealed model_provider /\
  aead_opens_sealed model_provider /\
  encoder_exact RawEncoder /\
  holds_key zero_key_box (zeros 32) /\
  (forall n : bytes, @None bytes = Some n -> length n = 24) /\
  (exists msg st1 n c,
      SecretBox.encrypt (P:=model_provider) test_message None RawEncoder zero_key_box
        = (Ok msg, st1) /\
      combined msg = encode RawEncoder (n ++ c) /\ length n = 24 /\
      forall st2, holds_key st2 (zeros 32) ->
        SecretBox.decrypt (P:=model_provider) (combined msg) None RawEncoder st2 =
          (Ok test_message,
           logged [CallDecode;
                   CallSecretboxOpen (PyBytes c) (PyBytes n) (PyBytes (zeros 32))] st2)) /\
  (forall aad, exists msg st1 n c,
      Aead.encrypt (P:=model_provider) test_message aad None RawEncoder zero_key_box
        = (Ok msg, st1) /\
      combined msg = encode RawEncoder (n ++ c) /\ length n = 24 /\
      forall st2, holds_key st2 (zeros 32) ->
        Aead.decrypt (P:=model_provider) (combined msg) aad None RawEncoder st2 =
          (Ok test_message,
           logged [CallDecode;
                   CallAeadDecrypt (PyBytes c) (PyBytes aad) (PyBytes n)
                     (PyBytes (zeros 32))] st2)).
Proof.
  assert (forall n : bytes, @None bytes = Some n -> length n = 24) as Hnone
    by (intros n Hn; discriminate Hn).
  split; [exact model_provider_secretbox|].
  split; [exact model_provider_aead|].
  split; [exact RawEncoder_exact|].
  split; [exact zero_key_box_holds_key|].
  split; [exact Hnone|].
  exact (C3_decrypt_combined model_provider model_provider_secretbox
           model_provider_aead pyobj RawEncoder RawEncoder_exact (zeros 32)
           test_message None zero_key_box zero_key_box_holds_key Hnone).
Defined.

(** ** The constructor contract *)

(** C5: [SecretBox(key, encoder)] and [Aead(key, encoder)], for every key
    value and what the encoder decodes it to: a decoded value that is not
    bytes raises the type error of the class; bytes of a length other than 32
    raise the key size error; in both cases no attribute is written.  Bytes
    of length 32 are stored under [_key], which on a new object is its only
    attribute, and [__bytes__] returns them.  (When the encoder cannot decode
    the key, its error is the one raised.) *)
Theorem C5_constructor_contract T (key : T) (encoder : Encoder T) (st : state)
    (decoded : pyobj) :
  decode encoder key = Ok decoded ->
  (isinstance_bytes decoded = false ->
     SecretBox.__init__ key encoder st =
       (Raise (InvalidKeyType "SecretBox"), logged [CallDecode] st) /\
     Aead.__init__ key encoder st =
       (Raise (InvalidKeyType "AEAD"), logged [CallDecode] st)) /\
  (forall k, decoded = PyBytes k -> length k <> 32 ->
     SecretBox.__init__ key encoder st = (Raise InvalidKeySize, logged [CallDecode] st) /\
     Aead.__init__ key encoder st = (Raise InvalidKeySize, logged [CallDecode] st)) /\
  (forall k, decoded = PyBytes k -> length k = 32 ->
     exists st',
       SecretBox.__init__ key encoder st = (Ok tt, st') /\
       Aead.__init__ key encoder st = (Ok tt, st') /\
       attrs st' = <["_key" := PyBytes k]> (attrs st) /\
       (attrs st = ∅ -> attrs st' = {["_key" := PyBytes k]}) /\
       holds_key st' k /\
       SecretBox.__bytes__ st' = (Ok (PyBytes k), st') /\
       Aead.__bytes__ st' = (Ok (PyBytes k), st')).
Proof.
  intros Hdec. split; [|split].
  - intros Hty. split.
    + by apply SecretBox_init_not_bytes with decoded.
    + by apply Aead_init_not_bytes with decoded.
  - intros k -> Hlen.
    rewrite (SecretBox_init_bytes _ _ _ k), (Aead_init_bytes _ _ _ k) by done.
    by rewrite decide_False.
  - intros k -> Hlen.
    exists (snd (setattr "_key" (PyBytes k) (logged [CallDecode] st))).
    rewrite (SecretBox_init_bytes _ _ _ k), (Aead_init_bytes _ _ _ k) by done.
    rewrite decide_True by done.
    assert (<["_key" := PyBytes k]> (attrs st) !! "_key" = Some (PyBytes k)) as Hlook
      by apply lookup_insert_eq.
    repeat split; try done.
    + cbn. by intros ->.
    + unfold SecretBox.__bytes__, getattr. cbn. by rewrite Hlook.
    + unfold Aead.__bytes__, getattr. cbn. by rewrite Hlook.
Qed.

(** The three kinds of key on a new object, with the default encoder: 32 zero
    bytes, 31 zero bytes, and a [str]. *)
Lemma C5_constructor_witness :
  (exists st',
      SecretBox.__init__ (PyBytes (zeros 32)) RawEncoder (new_object counting_source)
        = (Ok tt, st') /\
      attrs st' = {["_key" := PyBytes (zeros 32)]}) /\
  fst (SecretBox.__init__ (PyBytes (zeros 31)) RawEncoder (new_object counting_source))
    = Raise (ValueError "The key must be exactly 32 bytes long") /\
  fst (Aead.__init__ (PyStr "k") RawEncoder (new_object counting_source))
    = Raise (TypeError "AEAD must be created from 32 bytes").
Proof.
  pose proof (C5_constructor_contract pyobj (PyBytes (zeros 32)) RawEncoder
                (new_object counting_source) (PyBytes (zeros 32)) eq_refl)
    as (_ & _ & H32).
  pose proof (C5_constructor_contract pyobj (PyBytes (zeros 31)) RawEncoder
                (new_object counting_source) (PyBytes (zeros 31)) eq_refl)
    as (_ & H31 & _).
  pose proof (C5_constructor_contract pyobj (PyStr "k") RawEncoder
                (new_object counting_source) (PyStr "k") eq_refl)
    as (Hstr & _ & _).
  split; [|split].
  - destruct (H32 (zeros 32) eq_refl eq_refl) as (st' & Hinit & _ & _ & Hsole & _).
    exists st'. split; [exact Hinit|]. apply Hsole. reflexivity.
  - destruct (H31 (zeros 31) eq_refl) as [-> _]; [vm_compute; lia | reflexivity].
  - destruct (Hstr eq_refl) as [_ ->]. reflexivity.
Defined.

(** ** The nonce size check *)

(** C6: an explicit nonce whose length is not NONCE_SIZE makes [encrypt]
    raise the nonce size error in the state it was called in (no call was
    made at all), and makes [decrypt] raise it right after the input was
    decoded, the decoding being the only call made: no primitive was invoked.
    The check comes after the decoding: if the encoder cannot decode, its
    error is the one raised.  A nonce of exactly NONCE_SIZE bytes passes: the
    next call made is the primitive, with that nonce. *)
Theorem C6_nonce_size_check (P : Provider) T (encoder : Encoder T) (n : bytes) :
  (length n <> 24 ->
     (forall p st,
        SecretBox.encrypt p (Some n) encoder st = (Raise InvalidNonceSize, st)) /\
     (forall p aad st,
        Aead.encrypt p aad (Some n) encoder st = (Raise InvalidNonceSize, st)) /\
     (forall c raw st, decode encoder c = Ok raw ->
        SecretBox.decrypt c (Some n) encoder st =
          (Raise InvalidNonceSize, logged [CallDecode] st) /\
        no_primitive_call_between st (snd (SecretBox.decrypt c (Some n) encoder st))) /\
     (forall c aad raw st, decode encoder c = Ok raw ->
        Aead.decrypt c aad (Some n) encoder st =
          (Raise InvalidNonceSize, logged [CallDecode] st) /\
        no_primitive_call_between st (snd (Aead.decrypt c aad (Some n) encoder st)))) /\
  (forall c aad e st, decode encoder c = Raise e ->
     SecretBox.decrypt c (Some n) encoder st = (Raise e, logged [CallDecode] st) /\
     Aead.decrypt c aad (Some n) encoder st = (Raise e, logged [CallDecode] st)) /\
  (length n = 24 ->
     forall st key, attrs st !! "_key" = Some key ->
     (forall p, exists es,
        calls (snd (SecretBox.encrypt p (Some n) encoder st)) =
          calls st ++ CallSecretbox (PyBytes p) (PyBytes n) key :: es) /\
     (forall p aad, exists es,
        calls (snd (Aead.encrypt p aad (Some n) encoder st)) =
          calls st ++ CallAeadEncrypt (PyBytes p) (PyBytes aad) (PyBytes n) key :: es) /\
     (forall c raw, decode encoder c = Ok raw ->
        calls (snd (SecretBox.decrypt c (Some n) encoder st)) =
          calls st ++ [CallDecode; CallSecretboxOpen raw (PyBytes n) key]) /\
     (forall c aad raw, decode encoder c = Ok raw ->
        calls (snd (Aead.decrypt c aad (Some n) encoder st)) =
          calls st ++ [CallDecode; CallAeadDecrypt raw (PyBytes aad) (PyBytes n) key])).
Proof.
  split; [|split].
  - intros Hn. repeat split.
    + intros. by apply SecretBox_encrypt_bad_nonce.
    + intros. by apply Aead_encrypt_bad_nonce.
    + rewrite (SecretBox_decrypt_explicit _ _ _ raw) by done.
      unfold secretbox_open_checked. by rewrite decide_False.
    + rewrite (SecretBox_decrypt_explicit _ _ _ raw) by done.
      unfold secretbox_open_checked. rewrite decide_False by done.
      by exists [CallDecode].
    + rewrite (Aead_decrypt_explicit _ _ _ _ raw) by done.
      unfold aead_decrypt_checked. by rewrite decide_False.
    + rewrite (Aead_decrypt_explicit _ _ _ _ raw) by done.
      unfold aead_decrypt_checked. rewrite decide_False by done.
      by exists [CallDecode].
  - intros c aad e st He. split.
    + by apply SecretBox_decrypt_decode_raises.
    + by apply Aead_decrypt_decode_raises.
  - intros Hn st key Hkey. repeat split.
    + intros p. rewrite SecretBox_encrypt_explicit, Hkey by done.
      destruct (crypto_secretbox _ _ _); eexists; reflexivity.
    + intros p aad. rewrite Aead_encrypt_explicit, Hkey by done.
      destruct (crypto_aead_xchacha20poly1305_ietf_encrypt _ _ _ _);
        eexists; reflexivity.
    + intros c raw Hraw. rewrite (SecretBox_decrypt_explicit _ _ _ raw) by done.
      unfold secretbox_open_checked. by rewrite decide_True, Hkey.
    + intros c aad raw Hraw. rewrite (Aead_decrypt_explicit _ _ _ _ raw) by done.
      unfold aead_decrypt_checked. by rewrite decide_True, Hkey.
Qed.

(** A nonce of 23 bytes and one of 24, on the concrete scenario. *)
Lemma C6_nonce_size_witness :
  SecretBox.encrypt (P:=model_provider) test_message (Some (zeros 23)) RawEncoder
    zero_key_box
  = (Raise (ValueError "The nonce must be exactly 24 bytes long"), zero_key_box) /\
  Aead.decrypt (P:=model_provider) (PyBytes test_message) header (Some (zeros 23))
    RawEncoder zero_key_box
  = (Raise (ValueError "The nonce must be exactly 24 bytes long"),
     logged [CallDecode] zero_key_box) /\
  calls (snd (SecretBox.decrypt (P:=model_provider) (PyBytes test_message)
                (Some (zeros 24)) RawEncoder zero_key_box))
  = calls zero_key_box
    ++ [CallDecode;
        CallSecretboxOpen (PyBytes test_message) (PyBytes (zeros 24))
          (PyBytes (zeros 32))].
Proof.
  assert (length (zeros 23) <> 24) as H23 by (vm_compute; lia).
  pose proof (C6_nonce_size_check model_provider pyobj RawEncoder (zeros 23))
    as (Hbad & _ & _).
  pose proof (C6_nonce_size_check model_provider pyobj RawEncoder (zeros 24))
    as (_ & _ & Hgood).
  destruct (Hbad H23) as (Henc & _ & _ & Hdec).
  destruct (Hgood eq_refl zero_key_box (PyBytes (zeros 32)) eq_refl)
    as (_ & _ & Hopen & _).
  split; [apply Henc|].
  split; [apply (Hdec (PyBytes test_message) header (PyBytes test_message)); reflexivity|].
  apply (Hopen (PyBytes test_message) (PyBytes test_message)). reflexivity.
Defined.

(** ** The nonce drawn by [encrypt] *)

(** C7: [encrypt] with the nonce omitted first calls the random source for
    NONCE_SIZE bytes, gets the next NONCE_SIZE bytes [n] of its entropy (bytes
    no earlier call was given, and none a later call will be given: the
    source has moved past them), and goes on as [encrypt] with [n] as the
    explicit nonce: [n] is what the primitive is called with and what the
    message exposes as its nonce. *)
Theorem C7_omitted_nonce_is_drawn (P : Provider) T (encoder : Encoder T)
    (p aad : bytes) (st : state) :
  let n := map (entropy st) (seq (drawn st) 24) in
  let st0 := advanced 24 (logged [CallRandom 24] st) in
  random SecretBox.NONCE_SIZE st = (Ok n, st0) /\
  random Aead.NONCE_SIZE st = (Ok n, st0) /\
  length n = 24 /\
  SecretBox.encrypt p None encoder st = SecretBox.encrypt p (Some n) encoder st0 /\
  Aead.encrypt p aad None encoder st = Aead.encrypt p aad (Some n) encoder st0 /\
  drawn (snd (SecretBox.encrypt p None encoder st)) = drawn st + 24 /\
  drawn (snd (Aead.encrypt p aad None encoder st)) = drawn st + 24 /\
  (forall key c,
     attrs st !! "_key" = Some key ->
     crypto_secretbox (PyBytes p) (PyBytes n) key = Ok c ->
     SecretBox.encrypt p None encoder st =
       (Ok (message_of encoder n c), after_secretbox p n key c st0) /\
     nonce (message_of encoder n c) = encode encoder n /\
     calls (after_secretbox p n key c st0) =
       calls st ++ [CallRandom 24; CallSecretbox (PyBytes p) (PyBytes n) key;
                    CallEncode n; CallEncode c; CallEncode (n ++ c)]) /\
  (forall key c,
     attrs st !! "_key" = Some key ->
     crypto_aead_xchacha20poly1305_ietf_encrypt
       (PyBytes p) (PyBytes aad) (PyBytes n) key = Ok c ->
     Aead.encrypt p aad None encoder st =
       (Ok (message_of encoder n c), after_aead_encrypt p aad n key c st0) /\
     nonce (message_of encoder n c) = encode encoder n /\
     calls (after_aead_encrypt p aad n key c st0) =
       calls st ++ [CallRandom 24;
                    CallAeadEncrypt (PyBytes p) (PyBytes aad) (PyBytes n) key;
                    CallEncode n; CallEncode c; CallEncode (n ++ c)]).
Proof.
  intros n st0.
  assert (length n = 24) as Hn by (subst n; by rewrite length_map, length_seq).
  assert (attrs st0 = attrs st) as Hattrs by reflexivity.
  split; [reflexivity|]. split; [reflexivity|]. split; [exact Hn|].
  split; [apply SecretBox_encrypt_omitted|].
  split; [apply Aead_encrypt_omitted|].
  split; [|split; [|split]].
  - rewrite SecretBox_encrypt_omitted. fold n st0.
    rewrite SecretBox_encrypt_explicit by done.
    destruct (attrs st0 !! "_key"); [|reflexivity].
    by destruct (crypto_secretbox _ _ _).
  - rewrite Aead_encrypt_omitted. fold n st0.
    rewrite Aead_encrypt_explicit by done.
    destruct (attrs st0 !! "_key"); [|reflexivity].
    by destruct (crypto_aead_xchacha20poly1305_ietf_encrypt _ _ _ _).
  - intros key c Hkey Hc. rewrite SecretBox_encrypt_omitted. fold n st0.
    rewrite SecretBox_encrypt_explicit, Hattrs, Hkey, Hc by done.
    repeat split. cbn. by rewrite <- (assoc_L (++)).
  - intros key c Hkey Hc. rewrite Aead_encrypt_omitted. fold n st0.
    rewrite Aead_encrypt_explicit, Hattrs, Hkey, Hc by done.
    repeat split. cbn. by rewrite <- (assoc_L (++)).
Qed.

(** On the counting source a new box draws the bytes 0, 1, ..., 23. *)
Lemma C7_omitted_nonce_witness :
  exists c st',
    SecretBox.encrypt (P:=model_provider) test_message None RawEncoder zero_key_box
      = (Ok (message_of RawEncoder
               (map counting_source (seq 0 24)) c), st') /\
    drawn st' = 24 /\
    calls st' =
      calls zero_key_box ++
      [CallRandom 24;
       CallSecretbox (PyBytes test_message) (PyBytes (map counting_source (seq 0 24)))
         (PyBytes (zeros 32));
       CallEncode (map counting_source (seq 0 24)); CallEncode c;
       CallEncode (map counting_source (seq 0 24) ++ c)].
Proof.
  pose proof (C7_omitted_nonce_is_drawn model_provider pyobj RawEncoder
                test_message [] zero_key_box) as H.
  cbv zeta in H. destruct H as (_ & _ & _ & _ & _ & _ & _ & Hbox & _).
  destruct (Hbox (PyBytes (zeros 32))
              (model_tag [] (map counting_source (seq 0 24)) (zeros 32)
               ++ rev test_message) eq_refl eq_refl) as (Hrun & _ & Hcalls).
  eexists _, _. split; [exact Hrun|]. split; [reflexivity|exact Hcalls].
Defined.

(** ** A combined input that is too short *)

(** C10: [decrypt] with the nonce omitted on a decoded input [raw] shorter
    than NONCE_SIZE: the slice [raw[:NONCE_SIZE]] is all of [raw], the size
    check fails and the nonce size error is raised with the decoding as the
    only call made.  On an input of exactly NONCE_SIZE bytes the check passes
    and the primitive is called with the empty ciphertext, the input as the
    nonce, and the key; what the primitive answers is the outcome. *)
Theorem C10_short_combined_input (P : Provider) T (encoder : Encoder T)
    (c : T) (aad raw : bytes) (st : state) :
  decode encoder c = Ok (PyBytes raw) ->
  (length raw < 24 ->
     take 24 raw = raw /\
     SecretBox.decrypt c None encoder st =
       (Raise InvalidNonceSize, logged [CallDecode] st) /\
     Aead.decrypt c aad None encoder st =
       (Raise InvalidNonceSize, logged [CallDecode] st) /\
     no_primitive_call_between st (snd (SecretBox.decrypt c None encoder st)) /\
     no_primitive_call_between st (snd (Aead.decrypt c aad None encoder st))) /\
  (length raw = 24 ->
     forall key, attrs st !! "_key" = Some key ->
     SecretBox.decrypt c None encoder st =
       (crypto_secretbox_open (PyBytes []) (PyBytes raw) key,
        logged [CallDecode; CallSecretboxOpen (PyBytes []) (PyBytes raw) key] st) /\
     Aead.decrypt c aad None encoder st =
       (crypto_aead_xchacha20poly1305_ietf_decrypt
          (PyBytes []) (PyBytes aad) (PyBytes raw) key,
        logged [CallDecode;
                CallAeadDecrypt (PyBytes []) (PyBytes aad) (PyBytes raw) key] st)).
Proof.
  intros Hdec.
  rewrite (SecretBox_decrypt_combined _ _ raw), (Aead_decrypt_combined _ _ _ raw) by done.
  unfold secretbox_open_checked, aead_decrypt_checked.
  split.
  - intros Hshort. rewrite take_ge by lia.
    rewrite !decide_False by lia.
    repeat split; by exists [CallDecode].
  - intros Hlen key Hkey.
    rewrite take_ge, drop_ge by lia.
    by rewrite !decide_True, Hkey by done.
Qed.

(** 23 zero bytes, and 24 zero bytes, given to [decrypt] as a combined
    input. *)
Lemma C10_short_combined_witness :
  SecretBox.decrypt (P:=model_provider) (PyBytes (zeros 23)) None RawEncoder zero_key_box
    = (Raise (ValueError "The nonce must be exactly 24 bytes long"),
       logged [CallDecode] zero_key_box) /\
  SecretBox.decrypt (P:=model_provider) (PyBytes (zeros 24)) None RawEncoder zero_key_box
    = (Raise CryptoError,
       logged [CallDecode;
               CallSecretboxOpen (PyBytes []) (PyBytes (zeros 24)) (PyBytes (zeros 32))]
         zero_key_box).
Proof.
  split.
  - refine (proj1 (proj2 (proj1 (C10_short_combined_input model_provider pyobj RawEncoder
             (PyBytes (zeros 23)) [] (zeros 23) zero_key_box eq_refl) _))).
    vm_compute. lia.
  - exact (proj1 (proj2 (C10_short_combined_input model_provider pyobj RawEncoder
             (PyBytes (zeros 24)) [] (zeros 24) zero_key_box eq_refl)
             eq_refl (PyBytes (zeros 32)) eq_refl)).
Defined.

(** ** What a call leaves untouched *)

Create HintDb frame discriminated.

Lemma preserves_ret {A} (a : A) : preserves_attrs (ret a).
Proof. intros st. reflexivity. Qed.

Lemma preserves_raise {A} e : preserves_attrs (@raise A e).
Proof. intros st. reflexivity. Qed.

Lemma preserves_lift {A} (r : result A) : preserves_attrs (lift r).
Proof. intros st. reflexivity. Qed.

Lemma preserves_log e : preserves_attrs (log e).
Proof. intros st. reflexivity. Qed.

Lemma preserves_getattr name : preserves_attrs (getattr name).
Proof. intros st. unfold getattr. by destruct (attrs st !! name). Qed.

Lemma preserves_bind {A B} (m : M A) (k : A -> M B) :
  preserves_attrs m -> (forall a, preserves_attrs (k a)) -> preserves_attrs (bind m k).
Proof.
  intros Hm Hk st. unfold bind. specialize (Hm st).
  destruct (m st) as [[a|e] st1]; simpl in *.
  - by rewrite Hk.
  - exact Hm.
Qed.

Lemma preserves_random size : preserves_attrs (random size).
Proof. intros st. reflexivity. Qed.

Lemma preserves_py_len o : preserves_attrs (py_len o).
Proof. destruct o; intros st; reflexivity. Qed.

Lemma preserves_py_slice_to n o : preserves_attrs (py_slice_to n o).
Proof. destruct o; intros st; reflexivity. Qed.

Lemma preserves_py_slice_from n o : preserves_attrs (py_slice_from n o).
Proof. destruct o; intros st; reflexivity. Qed.

#[local] Hint Resolve preserves_ret preserves_raise preserves_lift preserves_log
  preserves_getattr preserves_random preserves_py_len preserves_py_slice_to
  preserves_py_slice_from : frame.

(** Goes through a method body bind by bind. *)
Ltac frame_steps :=
  repeat first
    [ solve [auto with frame]
    | match goal with
      | |- preserves_attrs (match ?x with _ => _ end) => destruct x
      | |- preserves_attrs (let '(_, _) := ?x in _) => destruct x
      end
    | apply preserves_bind; [|intros ?] ].

Section Frame.
Context {P : Provider} {T : Type}.

Lemma SecretBox_encrypt_preserves p nonce_arg (encoder : Encoder T) :
  preserves_attrs (SecretBox.encrypt p nonce_arg encoder).
Proof.
  unfold SecretBox.encrypt, bindings_crypto_secretbox, encoder_encode. frame_steps.
Qed.

Lemma SecretBox_decrypt_preserves c nonce_arg (encoder : Encoder T) :
  preserves_attrs (SecretBox.decrypt c nonce_arg encoder).
Proof.
  unfold SecretBox.decrypt, bindings_crypto_secretbox_open, encoder_decode. frame_steps.
Qed.

Lemma Aead_encrypt_preserves p aad nonce_arg (encoder : Encoder T) :
  preserves_attrs (Aead.encrypt p aad nonce_arg encoder).
Proof.
  unfold Aead.encrypt, bindings_crypto_aead_xchacha20poly1305_ietf_encrypt,
    encoder_encode.
  frame_steps.
Qed.

Lemma Aead_decrypt_preserves c aad nonce_arg (encoder : Encoder T) :
  preserves_attrs (Aead.decrypt c aad nonce_arg encoder).
Proof.
  unfold Aead.decrypt, bindings_crypto_aead_xchacha20poly1305_ietf_decrypt,
    encoder_decode.
  frame_steps.
Qed.

Lemma perform_preserves (call : method_call T) st :
  attrs (perform call st) = attrs st.
Proof.
  destruct call; simpl.
  - apply SecretBox_encrypt_preserves.
  - apply SecretBox_decrypt_preserves.
  - apply Aead_encrypt_preserves.
  - apply Aead_decrypt_preserves.
  - apply preserves_getattr.
Qed.

Lemma perform_all_preserves (calls : list (method_call T)) st :
  attrs (perform_all calls st) = attrs st.
Proof.
  unfold perform_all. revert st.
  induction calls as [|call calls IH]; intros st; simpl.
  - reflexivity.
  - by rewrite IH, perform_preserves.
Qed.
End Frame.

(** C9: whatever sequence of [encrypt], [decrypt] and [__bytes__] calls is
    made on an instance, with whatever arguments and whether they return or
    raise, the attributes of the instance are afterwards what they were
    before: [_key] is not rewritten and no other attribute is written, by the
    sequence as a whole and by each single call, so [__bytes__] returns the
    same after as before. *)
Theorem C9_key_is_never_written (P : Provider) T (cs : list (method_call T))
    (st : state) :
  attrs (perform_all cs st) = attrs st /\
  fst (SecretBox.__bytes__ (perform_all cs st)) = fst (SecretBox.__bytes__ st) /\
  fst (Aead.__bytes__ (perform_all cs st)) = fst (Aead.__bytes__ st) /\
  (forall (call : method_call T) st0,
     attrs (perform call st0) = attrs st0 /\
     fst (SecretBox.__bytes__ (perform call st0)) = fst (SecretBox.__bytes__ st0) /\
     fst (Aead.__bytes__ (perform call st0)) = fst (Aead.__bytes__ st0)) /\
  (forall k, holds_key st k ->
     holds_key (perform_all cs st) k /\
     fst (SecretBox.__bytes__ (perform_all cs st)) = Ok (PyBytes k)).
Proof.
  assert (forall s s', attrs s' = attrs s ->
            fst (getattr "_key" s') = fst (getattr "_key" s)) as Hget.
  { intros s s' Heq. unfold getattr. rewrite Heq.
    by destruct (attrs s !! "_key"). }
  pose proof (perform_all_preserves cs st) as Hall.
  split; [exact Hall|].
  split; [by apply Hget|]. split; [by apply Hget|]. split.
  - intros call st0. pose proof (perform_preserves call st0) as H1.
    split; [exact H1|]. split; by apply Hget.
  - intros k [Hk Hlen]. split.
    + split; [by rewrite Hall|exact Hlen].
    + unfold SecretBox.__bytes__, getattr. by rewrite Hall, Hk.
Qed.

(** Three calls on the box of the concrete scenario: an encryption with a
    drawn nonce, a decryption that fails, an encryption with a bad nonce. *)
Lemma C9_key_is_never_written_witness :
  let cs := [DoSecretBoxEncrypt test_message None RawEncoder;
             DoAeadDecrypt (PyBytes test_message) header None RawEncoder;
             DoSecretBoxEncrypt test_message (Some (zeros 3)) RawEncoder] in
  holds_key (perform_all (P:=model_provider) cs zero_key_box) (zeros 32) /\
  fst (SecretBox.__bytes__ (perform_all (P:=model_provider) cs zero_key_box))
    = Ok (PyBytes (zeros 32)) /\
  attrs (perform_all (P:=model_provider) cs zero_key_box)
    = {["_key" := PyBytes (zeros 32)]}.
Proof.
  intros cs.
  destruct (C9_key_is_never_written model_provider pyobj cs zero_key_box)
    as (Hattrs & _ & _ & _ & Hkey).
  destruct (Hkey (zeros 32) zero_key_box_holds_key) as [H1 H2].
  split; [exact H1|]. split; [exact H2|].
  rewrite Hattrs. reflexivity.
Defined.

(** ** Determinism *)

Section Determinism.
Context {P : Provider} {T : Type} (encoder : Encoder T).

Lemma SecretBox_encrypt_reads_attrs p n st1 st2 :
  attrs st1 = attrs st2 ->
  fst (SecretBox.encrypt p (Some n) encoder st1)
  = fst (SecretBox.encrypt p (Some n) encoder st2).
Proof.
  intros Heq. destruct (decide (length n = 24)) as [Hn|Hn].
  - rewrite !SecretBox_encrypt_explicit, Heq by done.
    destruct (attrs st2 !! "_key") as [key|]; [|reflexivity].
    by destruct (crypto_secretbox _ _ _).
  - by rewrite !SecretBox_encrypt_bad_nonce.
Qed.

Lemma Aead_encrypt_reads_attrs p a n st1 st2 :
  attrs st1 = attrs st2 ->
  fst (Aead.encrypt p a (Some n) encoder st1)
  = fst (Aead.encrypt p a (Some n) encoder st2).
Proof.
  intros Heq. destruct (decide (length n = 24)) as [Hn|Hn].
  - rewrite !Aead_encrypt_explicit, Heq by done.
    destruct (attrs st2 !! "_key") as [key|]; [|reflexivity].
    by destruct (crypto_aead_xchacha20poly1305_ietf_encrypt _ _ _ _).
  - by rewrite !Aead_encrypt_bad_nonce.
Qed.
End Determinism.

(** C8: with an explicit nonce, what [encrypt] returns (the message with its
    three fields, or the exception) is the same in any two states of the same
    instance: it does not depend on the random source, on how much was drawn
    from it, or on the calls made before.  In particular a second call with
    the same arguments, made after the first, returns what the first did. *)
Theorem C8_encrypt_is_deterministic (P : Provider) T (encoder : Encoder T)
    (p aad n : bytes) (st1 st2 : state) :
  attrs st1 = attrs st2 ->
  fst (SecretBox.encrypt p (Some n) encoder st1)
    = fst (SecretBox.encrypt p (Some n) encoder st2) /\
  fst (Aead.encrypt p aad (Some n) encoder st1)
    = fst (Aead.encrypt p aad (Some n) encoder st2) /\
  fst (SecretBox.encrypt p (Some n) encoder
         (snd (SecretBox.encrypt p (Some n) encoder st1)))
    = fst (SecretBox.encrypt p (Some n) encoder st1) /\
  fst (Aead.encrypt p aad (Some n) encoder
         (snd (Aead.encrypt p aad (Some n) encoder st1)))
    = fst (Aead.encrypt p aad (Some n) encoder st1).
Proof.
  intros Heq. split; [|split; [|split]].
  - by apply SecretBox_encrypt_reads_attrs.
  - by apply Aead_encrypt_reads_attrs.
  - apply SecretBox_encrypt_reads_attrs, SecretBox_encrypt_preserves.
  - apply Aead_encrypt_reads_attrs, Aead_encrypt_preserves.
Qed.

(** The concrete scenario, encrypted on the new box and on the same box
    after an encryption that drew a nonce. *)
Lemma C8_encrypt_is_deterministic_witness :
  let later := snd (SecretBox.encrypt (P:=model_provider) header None RawEncoder
                      zero_key_box) in
  attrs zero_key_box = attrs later /\
  later <> zero_key_box /\
  fst (SecretBox.encrypt (P:=model_provider) test_message (Some (zeros 24)) RawEncoder
         zero_key_box)
  = fst (SecretBox.encrypt (P:=model_provider) test_message (Some (zeros 24)) RawEncoder
           later) /\
  fst (SecretBox.encrypt (P:=model_provider) test_message (Some (zeros 24)) RawEncoder
         zero_key_box) = Ok test_message_sealed.
Proof.
  intros later.
  assert (attrs zero_key_box = attrs later) as Heq by reflexivity.
  split; [exact Heq|]. split.
  - intros H. apply (f_equal drawn) in H. vm_compute in H. discriminate H.
  - split; [|reflexivity].
    exact (proj1 (C8_encrypt_is_deterministic model_provider pyobj RawEncoder
                    test_message [] (zeros 24) zero_key_box later Heq)).
Defined.

(** ** Associated data *)






(** * Further properties of the two classes *)

Lemma bind_ok_inv {A B} (m : M A) (k : A -> M B) st b st2 :
  bind m k st = (Ok b, st2) ->
  exists a st1, m st = (Ok a, st1) /\ k a st1 = (Ok b, st2).
Proof.
  unfold bind. destruct (m st) as [[a | e] st1]; intros H.
  - exists a, st1. split; [reflexivity | exact H].
  - discriminate H.
Qed.

Lemma MirrorEncoder_exact : encoder_exact MirrorEncoder.
Proof.
  intros b.
  assert (length (b ++ rev b) / 2 = length b) as Hhalf.
  { rewrite length_app, length_rev.
    replace (length b + length b) with (length b * 2) by lia.
    apply Nat.div_mul. lia. }
  change (decode MirrorEncoder (encode MirrorEncoder b))
    with (mirror_decode (PyBytes (b ++ rev b))).
  unfold mirror_decode. cbv zeta.
  rewrite Hhalf, take_app_length. by rewrite decide_True.
Qed.

(** ** The encoder only changes the representation *)

(** X1: [encrypt] with any encoder does what [encrypt] with the default encoder
    does: the same calls and the same final state, an exception exactly when
    the default raises it, and otherwise a message whose three fields are the
    encodings of the raw nonce, ciphertext and nonce-then-ciphertext that the
    default encoder returns as they are. *)
Theorem encrypt_encoder_only_encodes (P : Provider) T (E : Encoder T)
    (p aad : bytes) (nonce_arg : option bytes) (st : state) :
  snd (SecretBox.encrypt p nonce_arg E st)
    = snd (SecretBox.encrypt p nonce_arg RawEncoder st) /\
  snd (Aead.encrypt p aad nonce_arg E st)
    = snd (Aead.encrypt p aad nonce_arg RawEncoder st) /\
  (forall e,
     fst (SecretBox.encrypt p nonce_arg E st) = Raise e <->
     fst (SecretBox.encrypt p nonce_arg RawEncoder st) = Raise e) /\
  (forall e,
     fst (Aead.encrypt p aad nonce_arg E st) = Raise e <->
     fst (Aead.encrypt p aad nonce_arg RawEncoder st) = Raise e) /\
  (forall raw_msg,
     fst (SecretBox.encrypt p nonce_arg RawEncoder st) = Ok raw_msg ->
     exists n c,
       raw_msg = _from_parts (PyBytes n) (PyBytes c) (PyBytes (n ++ c)) /\
       fst (SecretBox.encrypt p nonce_arg E st) = Ok (message_of E n c)) /\
  (forall raw_msg,
     fst (Aead.encrypt p aad nonce_arg RawEncoder st) = Ok raw_msg ->
     exists n c,
       raw_msg = _from_parts (PyBytes n) (PyBytes c) (PyBytes (n ++ c)) /\
       fst (Aead.encrypt p aad nonce_arg E st) = Ok (message_of E n c)).
Proof.
  assert (exists n st0,
            (forall U (F : Encoder U),
               SecretBox.encrypt p nonce_arg F st = SecretBox.encrypt p (Some n) F st0) /\
            (forall U (F : Encoder U),
               Aead.encrypt p aad nonce_arg F st = Aead.encrypt p aad (Some n) F st0))
    as (n & st0 & HS & HA).
  { destruct nonce_arg as [n|].
    - exists n, st. auto.
    - exists (map (entropy st) (seq (drawn st) 24)),
        (advanced 24 (logged [CallRandom 24] st)). auto. }
  rewrite !HS, !HA. clear HS HA.
  destruct (decide (length n = 24)) as [Hn|Hn].
  - rewrite !SecretBox_encrypt_explicit, !Aead_encrypt_explicit by done.
    destruct (attrs st0 !! "_key") as [key|].
    + destruct (crypto_secretbox _ _ _) as [c|e1];
        destruct (crypto_aead_xchacha20poly1305_ietf_encrypt _ _ _ _) as [c'|e2];
        cbn [fst snd]; repeat split; try done;
        try (intros [= ->]; reflexivity);
        intros raw_msg [= <-]; eauto.
    + cbn [fst snd]. repeat split; try done; intros [= ->]; reflexivity.
  - rewrite !SecretBox_encrypt_bad_nonce, !Aead_encrypt_bad_nonce by done.
    cbn [fst snd]. repeat split; try done; intros [= <-]; reflexivity.
Qed.

(** The test message encrypted with the mirror encoder: the fields are the
    mirrored nonce, ciphertext and nonce-then-ciphertext of the default
    encoder's message. *)
Lemma encrypt_encoder_only_encodes_witness :
  fst (SecretBox.encrypt (P:=model_provider) test_message (Some (zeros 24))
         RawEncoder zero_key_box) = Ok test_message_sealed /\
  fst (SecretBox.encrypt (P:=model_provider) test_message (Some (zeros 24))
         MirrorEncoder zero_key_box)
  = Ok (message_of MirrorEncoder (zeros 24)
          (model_tag [] (zeros 24) (zeros 32) ++ rev test_message)).
Proof.
  assert (fst (SecretBox.encrypt (P:=model_provider) test_message (Some (zeros 24))
                 RawEncoder zero_key_box) = Ok test_message_sealed) as Hraw
    by (vm_compute; reflexivity).
  split; [exact Hraw|].
  destruct (encrypt_encoder_only_encodes model_provider pyobj MirrorEncoder
              test_message [] (Some (zeros 24)) zero_key_box)
    as (_ & _ & _ & _ & Hok & _).
  destruct (Hok test_message_sealed Hraw) as (n & c & Hparts & Hmsg).
  injection Hparts as <- <- _. exact Hmsg.
Defined.

(** X2: [decrypt] with an encoder is the decoding followed by [decrypt] with the
    default encoder: result, final state and calls are the same.  If the
    encoder cannot decode, its exception is raised and nothing else
    happens. *)
Theorem decrypt_is_decode_then_raw_decrypt (P : Provider) T (E : Encoder T)
    (c : T) (aad : bytes) (nonce_arg : option bytes) (st : state) :
  (forall v, decode E c = Ok v ->
     SecretBox.decrypt c nonce_arg E st = SecretBox.decrypt v nonce_arg RawEncoder st /\
     Aead.decrypt c aad nonce_arg E st = Aead.decrypt v aad nonce_arg RawEncoder st) /\
  (forall e, decode E c = Raise e ->
     SecretBox.decrypt c nonce_arg E st = (Raise e, logged [CallDecode] st) /\
     Aead.decrypt c aad nonce_arg E st = (Raise e, logged [CallDecode] st)).
Proof.
  split.
  - intros v Hv. split.
    + unfold SecretBox.decrypt.
      rewrite (bind_ok (encoder_decode E c) _ st v (logged [CallDecode] st))
        by (by rewrite encoder_decode_run, Hv).
      by rewrite (bind_ok (encoder_decode RawEncoder v) _ st v (logged [CallDecode] st)).
    + unfold Aead.decrypt.
      rewrite (bind_ok (encoder_decode E c) _ st v (logged [CallDecode] st))
        by (by rewrite encoder_decode_run, Hv).
      by rewrite (bind_ok (encoder_decode RawEncoder v) _ st v (logged [CallDecode] st)).
  - intros e He. split.
    + by apply SecretBox_decrypt_decode_raises.
    + by apply Aead_decrypt_decode_raises.
Qed.

(** A mirrored value and a value that is not one, given to [decrypt] with the
    mirror encoder. *)
Lemma decrypt_is_decode_then_raw_decrypt_witness :
  SecretBox.decrypt (P:=model_provider) (mirror_encode test_message) (Some (zeros 24))
    MirrorEncoder zero_key_box
  = SecretBox.decrypt (P:=model_provider) (PyBytes test_message) (Some (zeros 24))
      RawEncoder zero_key_box /\
  Aead.decrypt (P:=model_provider) (PyBytes header) header None MirrorEncoder
    zero_key_box
  = (Raise (EncodingError "not a mirrored value"), logged [CallDecode] zero_key_box).
Proof.
  destruct (decrypt_is_decode_then_raw_decrypt model_provider pyobj MirrorEncoder
              (mirror_encode test_message) [] (Some (zeros 24)) zero_key_box)
    as [Hok _].
  destruct (decrypt_is_decode_then_raw_decrypt model_provider pyobj MirrorEncoder
              (PyBytes header) header None zero_key_box)
    as [_ Hraise].
  split.
  - apply (Hok (PyBytes test_message)). apply MirrorEncoder_exact.
  - apply (Hraise (EncodingError "not a mirrored value")). vm_compute. reflexivity.
Defined.

(** ** The combined form and the explicit nonce *)

(** X3: [decrypt(x)] is [decrypt(x[24:], nonce=x[:24])]: with the nonce omitted,
    [decrypt] on decoded bytes [raw] of any length does what [decrypt] with
    the explicit nonce [raw[:24]] does on [raw[24:]], result, calls and final
    state.  No length is required of the remainder: when [raw] has 24 bytes
    or more the primitive is called with it, however short it is. *)
Theorem decrypt_combined_is_explicit_on_slices (P : Provider) T (E : Encoder T)
    (c : T) (aad raw : bytes) (st : state) :
  decode E c = Ok (PyBytes raw) ->
  SecretBox.decrypt c None E st
    = SecretBox.decrypt (PyBytes (drop 24 raw)) (Some (take 24 raw)) RawEncoder st /\
  Aead.decrypt c aad None E st
    = Aead.decrypt (PyBytes (drop 24 raw)) aad (Some (take 24 raw)) RawEncoder st /\
  (24 <= length raw -> forall key, attrs st !! "_key" = Some key ->
     calls (snd (SecretBox.decrypt c None E st))
       = calls st ++ [CallDecode;
                      CallSecretboxOpen (PyBytes (drop 24 raw)) (PyBytes (take 24 raw)) key] /\
     calls (snd (Aead.decrypt c aad None E st))
       = calls st ++ [CallDecode;
                      CallAeadDecrypt (PyBytes (drop 24 raw)) (PyBytes aad)
                        (PyBytes (take 24 raw)) key]).
Proof.
  intros Hdec.
  rewrite (SecretBox_decrypt_combined _ _ raw), (Aead_decrypt_combined _ _ _ raw) by done.
  rewrite (SecretBox_decrypt_explicit RawEncoder _ _ (PyBytes (drop 24 raw))),
    (Aead_decrypt_explicit RawEncoder _ _ _ (PyBytes (drop 24 raw))) by reflexivity.
  split; [reflexivity|]. split; [reflexivity|].
  intros Hlen key Hkey.
  unfold secretbox_open_checked, aead_decrypt_checked.
  rewrite length_take, !decide_True, Hkey by lia. split; reflexivity.
Qed.

(** A combined input of 30 bytes: a remainder of 6, shorter than a tag. *)
Lemma decrypt_combined_is_explicit_on_slices_witness :
  SecretBox.decrypt (P:=model_provider) (PyBytes (zeros 30)) None RawEncoder zero_key_box
  = SecretBox.decrypt (P:=model_provider) (PyBytes (zeros 6)) (Some (zeros 24))
      RawEncoder zero_key_box /\
  calls (snd (SecretBox.decrypt (P:=model_provider) (PyBytes (zeros 30)) None RawEncoder
                zero_key_box))
  = calls zero_key_box ++
    [CallDecode;
     CallSecretboxOpen (PyBytes (zeros 6)) (PyBytes (zeros 24)) (PyBytes (zeros 32))].
Proof.
  destruct (decrypt_combined_is_explicit_on_slices model_provider pyobj RawEncoder
              (PyBytes (zeros 30)) [] (zeros 30) zero_key_box eq_refl)
    as (Hsb & _ & Hcalls).
  split; [exact Hsb|].
  refine (proj1 (Hcalls _ (PyBytes (zeros 32)) eq_refl)). vm_compute. lia.
Defined.

(** ** The outcome of [decrypt] is the primitive's *)

Section DecryptInversion.
Context {P : Provider} {T : Type} (E : Encoder T).

Lemma SecretBox_decrypt_ok_inv c nonce_arg st p st' :
  SecretBox.decrypt c nonce_arg E st = (Ok p, st') ->
  exists ct nv key,
    attrs st !! "_key" = Some key /\
    crypto_secretbox_open ct nv key = Ok p /\
    st' = logged [CallDecode; CallSecretboxOpen ct nv key] st /\
    (forall n, nonce_arg = Some n ->
       nv = PyBytes n /\ length n = 24 /\ decode E c = Ok ct) /\
    (nonce_arg = None ->
       (exists raw, decode E c = Ok (PyBytes raw) /\ 24 <= length raw /\
                    nv = PyBytes (take 24 raw) /\ ct = PyBytes (drop 24 raw)) \/
       (exists s, decode E c = Ok (PyStr s))).
Proof.
  destruct (decode E c) as [v|e] eqn:Hdec;
    [|rewrite (SecretBox_decrypt_decode_raises _ _ _ e) by done; discriminate].
  destruct nonce_arg as [n|].
  - rewrite (SecretBox_decrypt_explicit _ _ _ v) by done.
    unfold secretbox_open_checked. case_decide as Hn; [|discriminate].
    destruct (attrs st !! "_key") as [key|]; [|discriminate].
    intros [= Hopen <-]. exists v, (PyBytes n), key.
    repeat split; try done; by simplify_eq.
  - destruct v as [raw|s|z|].
    + rewrite (SecretBox_decrypt_combined _ _ raw) by done.
      unfold secretbox_open_checked. case_decide as Hn; [|discriminate].
      destruct (attrs st !! "_key") as [key|]; [|discriminate].
      intros [= Hopen <-].
      exists (PyBytes (drop 24 raw)), (PyBytes (take 24 raw)), key.
      repeat split; try done. intros _. left. exists raw.
      rewrite length_take in Hn. repeat split; try done. lia.
    + unfold SecretBox.decrypt.
      erewrite bind_ok by (rewrite encoder_decode_run, Hdec; reflexivity).
      unfold_monad. size_checks; try discriminate.
      destruct (attrs st !! "_key") as [key|]; [|discriminate].
      rewrite !logged_logged.
      destruct (crypto_secretbox_open _ _ _) as [p'|] eqn:Hopen; [|discriminate].
      intros [= <- <-]. eexists _, _, key.
      repeat split; try done. intros _. right. by exists s.
    + unfold SecretBox.decrypt.
      erewrite bind_ok by (rewrite encoder_decode_run, Hdec; reflexivity).
      discriminate.
    + unfold SecretBox.decrypt.
      erewrite bind_ok by (rewrite encoder_decode_run, Hdec; reflexivity).
      discriminate.
Qed.

Lemma Aead_decrypt_ok_inv c aad nonce_arg st p st' :
  Aead.decrypt c aad nonce_arg E st = (Ok p, st') ->
  exists ct nv key,
    attrs st !! "_key" = Some key /\
    crypto_aead_xchacha20poly1305_ietf_decrypt ct (PyBytes aad) nv key = Ok p /\
    st' = logged [CallDecode; CallAeadDecrypt ct (PyBytes aad) nv key] st /\
    (forall n, nonce_arg = Some n ->
       nv = PyBytes n /\ length n = 24 /\ decode E c = Ok ct) /\
    (nonce_arg = None ->
       (exists raw, decode E c = Ok (PyBytes raw) /\ 24 <= length raw /\
                    nv = PyBytes (take 24 raw) /\ ct = PyBytes (drop 24 raw)) \/
       (exists s, decode E c = Ok (PyStr s))).
Proof.
  destruct (decode E c) as [v|e] eqn:Hdec;
    [|rewrite (Aead_decrypt_decode_raises _ _ _ _ e) by done; discriminate].
  destruct nonce_arg as [n|].
  - rewrite (Aead_decrypt_explicit _ _ _ _ v) by done.
    unfold aead_decrypt_checked. case_decide as Hn; [|discriminate].
    destruct (attrs st !! "_key") as [key|]; [|discriminate].
    intros [= Hopen <-]. exists v, (PyBytes n), key.
    repeat split; try done; by simplify_eq.
  - destruct v as [raw|s|z|].
    + rewrite (Aead_decrypt_combined _ _ _ raw) by done.
      unfold aead_decrypt_checked. case_decide as Hn; [|discriminate].
      destruct (attrs st !! "_key") as [key|]; [|discriminate].
      intros [= Hopen <-].
      exists (PyBytes (drop 24 raw)), (PyBytes (take 24 raw)), key.
      repeat split; try done. intros _. left. exists raw.
      rewrite length_take in Hn. repeat split; try done. lia.
    + unfold Aead.decrypt.
      erewrite bind_ok by (rewrite encoder_decode_run, Hdec; reflexivity).
      unfold_monad. size_checks; try discriminate.
      destruct (attrs st !! "_key") as [key|]; [|discriminate].
      rewrite !logged_logged.
      destruct (crypto_aead_xchacha20poly1305_ietf_decrypt _ _ _ _) as [p'|] eqn:Hopen;
        [|discriminate].
      intros [= <- <-]. eexists _, _, key.
      repeat split; try done. intros _. right. by exists s.
    + unfold Aead.decrypt.
      erewrite bind_ok by (rewrite encoder_decode_run, Hdec; reflexivity).
      discriminate.
    + unfold Aead.decrypt.
      erewrite bind_ok by (rewrite encoder_decode_run, Hdec; reflexivity).
      discriminate.
Qed.
End DecryptInversion.

(** X4: [decrypt] returns bytes only if the primitive returned them: whenever
    [SecretBox.decrypt] or [Aead.decrypt] returns [p], with whatever
    arguments, the key is set, the call of the opening primitive is the last
    call made, it was made with the stored key (and, for [Aead], the aad
    given), and [p] is what it answered.  With an explicit nonce the
    primitive got that nonce, of 24 bytes, and the decoded input. *)
Theorem decrypt_returns_what_the_primitive_returned (P : Provider) T (E : Encoder T)
    (c : T) (aad : bytes) (nonce_arg : option bytes) (st st' : state) (p : bytes) :
  SecretBox.decrypt c nonce_arg E st = (Ok p, st') \/
  Aead.decrypt c aad nonce_arg E st = (Ok p, st') ->
  exists ct nv key,
    attrs st !! "_key" = Some key /\
    (crypto_secretbox_open ct nv key = Ok p /\
     st' = logged [CallDecode; CallSecretboxOpen ct nv key] st
     \/
     crypto_aead_xchacha20poly1305_ietf_decrypt ct (PyBytes aad) nv key = Ok p /\
     st' = logged [CallDecode; CallAeadDecrypt ct (PyBytes aad) nv key] st) /\
    (forall n, nonce_arg = Some n ->
       nv = PyBytes n /\ length n = 24 /\ decode E c = Ok ct).
Proof.
  intros [H|H].
  - apply SecretBox_decrypt_ok_inv in H
      as (ct & nv & key & Hkey & Hopen & Hst & Hnonce & _).
    exists ct, nv, key. auto.
  - apply Aead_decrypt_ok_inv in H
      as (ct & nv & key & Hkey & Hopen & Hst & Hnonce & _).
    exists ct, nv, key. auto.
Qed.

(** The round trip of the concrete scenario, read backwards. *)
Lemma decrypt_returns_what_the_primitive_returned_witness :
  exists ct nv key,
    attrs zero_key_box !! "_key" = Some key /\
    (@crypto_secretbox_open model_provider ct nv key = Ok test_message /\
     logged [CallDecode;
             CallSecretboxOpen (ciphertext test_message_sealed)
               (PyBytes (zeros 24)) (PyBytes (zeros 32))] zero_key_box
     = logged [CallDecode; CallSecretboxOpen ct nv key] zero_key_box
     \/
     @crypto_aead_xchacha20poly1305_ietf_decrypt model_provider
       ct (PyBytes []) nv key = Ok test_message /\
     logged [CallDecode;
             CallSecretboxOpen (ciphertext test_message_sealed)
               (PyBytes (zeros 24)) (PyBytes (zeros 32))] zero_key_box
     = logged [CallDecode; CallAeadDecrypt ct (PyBytes []) nv key] zero_key_box) /\
    (forall n, Some (zeros 24) = Some n ->
       nv = PyBytes n /\ length n = 24 /\
       decode RawEncoder (ciphertext test_message_sealed) = Ok ct).
Proof.
  refine (decrypt_returns_what_the_primitive_returned model_provider pyobj RawEncoder
            (ciphertext test_message_sealed) [] (Some (zeros 24)) zero_key_box _
            test_message (or_introl _)).
  vm_compute. reflexivity.
Defined.

(** ** An exception of the primitive *)


Section Shapes.
Context {P : Provider} {T : Type} (E : Encoder T).





End Shapes.




(** ** An instance without a key *)

(** X6: On an object whose [_key] was never set, every method that needs the key
    raises [AttributeError] when it reads it: after the nonce was drawn or
    checked and the input decoded, and before any primitive is called.  A
    nonce of the wrong size is still reported first. *)
Theorem missing_key_raises_attribute_error (P : Provider) T (E : Encoder T)
    (st : state) :
  attrs st !! "_key" = None ->
  SecretBox.__bytes__ st = (Raise (AttributeError "_key"), st) /\
  (forall p aad n, length n = 24 ->
     SecretBox.encrypt p (Some n) E st = (Raise (AttributeError "_key"), st) /\
     Aead.encrypt p aad (Some n) E st = (Raise (AttributeError "_key"), st)) /\
  (forall p aad,
     SecretBox.encrypt p None E st =
       (Raise (AttributeError "_key"), advanced 24 (logged [CallRandom 24] st)) /\
     Aead.encrypt p aad None E st =
       (Raise (AttributeError "_key"), advanced 24 (logged [CallRandom 24] st))) /\
  (forall p aad n, length n <> 24 ->
     SecretBox.encrypt p (Some n) E st = (Raise InvalidNonceSize, st) /\
     Aead.encrypt p aad (Some n) E st = (Raise InvalidNonceSize, st)) /\
  (forall c aad n raw, decode E c = Ok raw -> length n = 24 ->
     SecretBox.decrypt c (Some n) E st =
       (Raise (AttributeError "_key"), logged [CallDecode] st) /\
     Aead.decrypt c aad (Some n) E st =
       (Raise (AttributeError "_key"), logged [CallDecode] st)) /\
  (forall c aad raw, decode E c = Ok (PyBytes raw) -> 24 <= length raw ->
     SecretBox.decrypt c None E st =
       (Raise (AttributeError "_key"), logged [CallDecode] st) /\
     Aead.decrypt c aad None E st =
       (Raise (AttributeError "_key"), logged [CallDecode] st)).
Proof.
  intros Hkey. split; [|split; [|split; [|split; [|split]]]].
  - unfold SecretBox.__bytes__, getattr. by rewrite Hkey.
  - intros p aad n Hn.
    by rewrite SecretBox_encrypt_explicit, Aead_encrypt_explicit, Hkey.
  - intros p aad.
    rewrite SecretBox_encrypt_omitted, Aead_encrypt_omitted.
    rewrite SecretBox_encrypt_explicit, Aead_encrypt_explicit
      by (by rewrite length_map, length_seq).
    change (attrs (advanced 24 (logged [CallRandom 24] st))) with (attrs st).
    by rewrite Hkey.
  - intros p aad n Hn.
    by rewrite SecretBox_encrypt_bad_nonce, Aead_encrypt_bad_nonce.
  - intros c aad n raw Hraw Hn.
    rewrite (SecretBox_decrypt_explicit _ _ _ raw),
      (Aead_decrypt_explicit _ _ _ _ raw) by done.
    unfold secretbox_open_checked, aead_decrypt_checked.
    by rewrite !decide_True, Hkey.
  - intros c aad raw Hraw Hlen.
    rewrite (SecretBox_decrypt_combined _ _ raw),
      (Aead_decrypt_combined _ _ _ raw) by done.
    unfold secretbox_open_checked, aead_decrypt_checked.
    rewrite length_take, !decide_True, Hkey by lia. done.
Qed.

(** A new object, on which [__init__] was not run. *)
Lemma missing_key_witness :
  SecretBox.__bytes__ (new_object counting_source)
    = (Raise (AttributeError "_key"), new_object counting_source) /\
  SecretBox.encrypt (P:=model_provider) test_message (Some (zeros 24)) RawEncoder
    (new_object counting_source)
    = (Raise (AttributeError "_key"), new_object counting_source) /\
  SecretBox.encrypt (P:=model_provider) test_message (Some (zeros 3)) RawEncoder
    (new_object counting_source)
    = (Raise (ValueError "The nonce must be exactly 24 bytes long"),
       new_object counting_source).
Proof.
  destruct (missing_key_raises_attribute_error model_provider pyobj RawEncoder
              (new_object counting_source) eq_refl)
    as (Hbytes & Hexplicit & _ & Hbad & _).
  split; [exact Hbytes|]. split.
  - exact (proj1 (Hexplicit test_message [] (zeros 24) eq_refl)).
  - refine (proj1 (Hbad test_message [] (zeros 3) _)). vm_compute. lia.
Defined.

(** ** A decoded input that cannot be sliced *)

(** X7: [decrypt] does not look at the type of what the encoder decoded.  With
    the nonce omitted, a decoded [None] or [int] fails at the slice with
    Python's [TypeError], after the decoding and with no primitive called;
    with an explicit nonce of 24 bytes such a value is handed to the
    primitive as it is. *)
Theorem decrypt_does_not_check_the_decoded_type (P : Provider) T (E : Encoder T)
    (c : T) (aad : bytes) (v : pyobj) (st : state) :
  decode E c = Ok v ->
  (v = PyNone \/ exists z, v = PyInt z) ->
  SecretBox.decrypt c None E st = (Raise PyTypeError, logged [CallDecode] st) /\
  Aead.decrypt c aad None E st = (Raise PyTypeError, logged [CallDecode] st) /\
  (forall n key, length n = 24 -> attrs st !! "_key" = Some key ->
     SecretBox.decrypt c (Some n) E st =
       (crypto_secretbox_open v (PyBytes n) key,
        logged [CallDecode; CallSecretboxOpen v (PyBytes n) key] st) /\
     Aead.decrypt c aad (Some n) E st =
       (crypto_aead_xchacha20poly1305_ietf_decrypt v (PyBytes aad) (PyBytes n) key,
        logged [CallDecode; CallAeadDecrypt v (PyBytes aad) (PyBytes n) key] st)).
Proof.
  intros Hdec Hv. split; [|split].
  - unfold SecretBox.decrypt.
    erewrite bind_ok by (rewrite encoder_decode_run, Hdec; reflexivity).
    by destruct Hv as [->|[z ->]].
  - unfold Aead.decrypt.
    erewrite bind_ok by (rewrite encoder_decode_run, Hdec; reflexivity).
    by destruct Hv as [->|[z ->]].
  - intros n key Hn Hkey.
    rewrite (SecretBox_decrypt_explicit _ _ _ v), (Aead_decrypt_explicit _ _ _ _ v)
      by done.
    unfold secretbox_open_checked, aead_decrypt_checked.
    by rewrite !decide_True, Hkey.
Qed.

(** [None] given to [decrypt] with the default encoder. *)
Lemma decrypt_does_not_check_the_decoded_type_witness :
  SecretBox.decrypt (P:=model_provider) PyNone None RawEncoder zero_key_box
    = (Raise PyTypeError, logged [CallDecode] zero_key_box) /\
  SecretBox.decrypt (P:=model_provider) PyNone (Some (zeros 24)) RawEncoder zero_key_box
    = (Raise (TypeError "input must be bytes"),
       logged [CallDecode;
               CallSecretboxOpen PyNone (PyBytes (zeros 24)) (PyBytes (zeros 32))]
         zero_key_box).
Proof.
  destruct (decrypt_does_not_check_the_decoded_type model_provider pyobj RawEncoder
              PyNone [] PyNone zero_key_box eq_refl (or_introl eq_refl))
    as (Hnone & _ & Hexplicit).
  split; [exact Hnone|].
  exact (proj1 (Hexplicit (zeros 24) (PyBytes (zeros 32)) eq_refl eq_refl)).
Defined.

(** ** The random source *)

Lemma leaves_source_ret {A} (a : A) : leaves_source (ret a).
Proof. intros st. split; reflexivity. Qed.

Lemma leaves_source_raise {A} e : leaves_source (@raise A e).
Proof. intros st. split; reflexivity. Qed.

Lemma leaves_source_lift {A} (r : result A) : leaves_source (lift r).
Proof. intros st. split; reflexivity. Qed.

Lemma leaves_source_log e : leaves_source (log e).
Proof. intros st. split; reflexivity. Qed.

Lemma leaves_source_getattr name : leaves_source (getattr name).
Proof. intros st. unfold getattr. by destruct (attrs st !! name). Qed.

Lemma leaves_source_bind {A B} (m : M A) (k : A -> M B) :
  leaves_source m -> (forall a, leaves_source (k a)) -> leaves_source (bind m k).
Proof.
  intros Hm Hk st. unfold bind. specialize (Hm st).
  destruct (m st) as [[a|e] st1]; simpl in *.
  - destruct (Hk a st1) as [-> ->]. exact Hm.
  - exact Hm.
Qed.

Lemma leaves_source_py_len o : leaves_source (py_len o).
Proof. destruct o; intros st; split; reflexivity. Qed.

Lemma leaves_source_py_slice_to n o : leaves_source (py_slice_to n o).
Proof. destruct o; intros st; split; reflexivity. Qed.

Lemma leaves_source_py_slice_from n o : leaves_source (py_slice_from n o).
Proof. destruct o; intros st; split; reflexivity. Qed.

#[local] Hint Resolve leaves_source_ret leaves_source_raise leaves_source_lift
  leaves_source_log leaves_source_getattr leaves_source_py_len
  leaves_source_py_slice_to leaves_source_py_slice_from : frame.

(** Goes through a method body that draws nothing, bind by bind. *)
Ltac source_steps :=
  repeat first
    [ solve [auto with frame]
    | match goal with
      | |- leaves_source (match ?x with _ => _ end) => destruct x
      | |- leaves_source (let '(_, _) := ?x in _) => destruct x
      end
    | apply leaves_source_bind; [|intros ?] ].

(** X8: Only [encrypt] with the nonce omitted touches the random source:
    [decrypt], whatever its arguments and its outcome, and [encrypt] with an
    explicit nonce draw nothing, and [__bytes__] neither; [encrypt] with the
    nonce omitted draws exactly NONCE_SIZE bytes, whatever its outcome.  The
    entropy still to come is never altered. *)
Theorem only_an_omitted_nonce_draws (P : Provider) T (E : Encoder T)
    (p aad : bytes) (c : T) (n : bytes) (nonce_arg : option bytes) (st : state) :
  leaves_source (SecretBox.decrypt c nonce_arg E) /\
  leaves_source (Aead.decrypt c aad nonce_arg E) /\
  leaves_source (SecretBox.encrypt p (Some n) E) /\
  leaves_source (Aead.encrypt p aad (Some n) E) /\
  leaves_source (@SecretBox.__bytes__) /\
  (drawn (snd (SecretBox.encrypt p None E st)) = drawn st + SecretBox.NONCE_SIZE /\
   entropy (snd (SecretBox.encrypt p None E st)) = entropy st) /\
  (drawn (snd (Aead.encrypt p aad None E st)) = drawn st + Aead.NONCE_SIZE /\
   entropy (snd (Aead.encrypt p aad None E st)) = entropy st).
Proof.
  assert (leaves_source (SecretBox.encrypt p (Some n) E)) as HS.
  { unfold SecretBox.encrypt, bindings_crypto_secretbox, encoder_encode. source_steps. }
  assert (leaves_source (Aead.encrypt p aad (Some n) E)) as HA.
  { unfold Aead.encrypt, bindings_crypto_aead_xchacha20poly1305_ietf_encrypt,
      encoder_encode.
    source_steps. }
  split; [|split; [|split; [|split; [|split; [|split]]]]]; try done.
  - unfold SecretBox.decrypt, bindings_crypto_secretbox_open, encoder_decode.
    source_steps.
  - unfold Aead.decrypt, bindings_crypto_aead_xchacha20poly1305_ietf_decrypt,
      encoder_decode.
    source_steps.
  - apply leaves_source_getattr.
  - rewrite SecretBox_encrypt_omitted.
    assert (leaves_source
              (SecretBox.encrypt p (Some (map (entropy st) (seq (drawn st) 24))) E))
      as H.
    { unfold SecretBox.encrypt, bindings_crypto_secretbox, encoder_encode.
      source_steps. }
    destruct (H (advanced 24 (logged [CallRandom 24] st))) as [-> ->]. done.
  - rewrite Aead_encrypt_omitted.
    assert (leaves_source
              (Aead.encrypt p aad (Some (map (entropy st) (seq (drawn st) 24))) E))
      as H.
    { unfold Aead.encrypt, bindings_crypto_aead_xchacha20poly1305_ietf_encrypt,
        encoder_encode.
      source_steps. }
    destruct (H (advanced 24 (logged [CallRandom 24] st))) as [-> ->]. done.
Qed.

(** On the concrete scenario: a decryption and an explicit encryption leave
    the source where it was, an encryption with the nonce omitted moves it by
    24 bytes. *)
Lemma only_an_omitted_nonce_draws_witness :
  drawn (snd (SecretBox.decrypt (P:=model_provider) (PyBytes test_message) None
                RawEncoder zero_key_box)) = 0 /\
  drawn (snd (Aead.encrypt (P:=model_provider) test_message header (Some (zeros 24))
                RawEncoder zero_key_box)) = 0 /\
  drawn (snd (Aead.encrypt (P:=model_provider) test_message header None
                RawEncoder zero_key_box)) = 24.
Proof.
  destruct (only_an_omitted_nonce_draws model_provider pyobj RawEncoder
              test_message header (PyBytes test_message) (zeros 24) None zero_key_box)
    as (Hdec & _ & _ & Henc & _ & _ & Hdrawn & _).
  split; [exact (proj1 (Hdec zero_key_box))|].
  split; [exact (proj1 (Henc zero_key_box))|exact Hdrawn].
Defined.

(** X9: Two encryptions in a row with the nonce omitted, both successful: the
    first message carries the next 24 bytes of the source, the second the 24
    bytes after those.  Every call draws anew; no nonce is kept on the
    instance and used again. *)
Theorem consecutive_omitted_nonces_are_consecutive_draws (P : Provider)
    T (E : Encoder T) (p1 p2 aad1 aad2 : bytes) (st st1 st2 : state)
    (msg1 msg2 : EncryptedMessage T) :
  SecretBox.encrypt p1 None E st = (Ok msg1, st1) /\
  SecretBox.encrypt p2 None E st1 = (Ok msg2, st2)
  \/
  Aead.encrypt p1 aad1 None E st = (Ok msg1, st1) /\
  Aead.encrypt p2 aad2 None E st1 = (Ok msg2, st2) ->
  nonce msg1 = encode E (map (entropy st) (seq (drawn st) 24)) /\
  nonce msg2 = encode E (map (entropy st) (seq (drawn st + 24) 24)) /\
  drawn st2 = drawn st + 48.
Proof.
  intros [[H1 H2]|[H1 H2]].
  - apply SecretBox_encrypt_ok_inv in H1
      as (n1 & c1 & k1 & s1 & _ & [[? _]|(_ & -> & ->)] & _ & _ & -> & ->);
      [discriminate|].
    apply SecretBox_encrypt_ok_inv in H2
      as (n2 & c2 & k2 & s2 & _ & [[? _]|(_ & -> & ->)] & _ & _ & -> & ->);
      [discriminate|].
    cbn. repeat split. lia.
  - apply Aead_encrypt_ok_inv in H1
      as (n1 & c1 & k1 & s1 & _ & [[? _]|(_ & -> & ->)] & _ & _ & -> & ->);
      [discriminate|].
    apply Aead_encrypt_ok_inv in H2
      as (n2 & c2 & k2 & s2 & _ & [[? _]|(_ & -> & ->)] & _ & _ & -> & ->);
      [discriminate|].
    cbn. repeat split. lia.
Qed.

(** On the counting source: the bytes 0..23, then the bytes 24..47. *)
Lemma consecutive_omitted_nonces_witness :
  exists msg1 st1 msg2 st2,
    SecretBox.encrypt (P:=model_provider) test_message None RawEncoder zero_key_box
      = (Ok msg1, st1) /\
    SecretBox.encrypt (P:=model_provider) test_message None RawEncoder st1
      = (Ok msg2, st2) /\
    nonce msg1 = PyBytes (map counting_source (seq 0 24)) /\
    nonce msg2 = PyBytes (map counting_source (seq 24 24)) /\
    nonce msg1 <> nonce msg2 /\
    drawn st2 = 48.
Proof.
  destruct (SecretBox.encrypt (P:=model_provider) test_message None RawEncoder
              zero_key_box) as [[msg1|e1] st1] eqn:H1;
    [|vm_compute in H1; discriminate H1].
  destruct (SecretBox.encrypt (P:=model_provider) test_message None RawEncoder st1)
    as [[msg2|e2] st2] eqn:H2;
    [|vm_compute in H1; injection H1 as <- <-; vm_compute in H2; discriminate H2].
  destruct (consecutive_omitted_nonces_are_consecutive_draws model_provider pyobj
              RawEncoder test_message test_message [] [] zero_key_box st1 st2
              msg1 msg2 (or_introl (conj H1 H2))) as (Hn1 & Hn2 & Hdrawn).
  exists msg1, st1, msg2, st2. repeat split; try done.
  rewrite Hn1, Hn2. vm_compute. discriminate.
Defined.

(** ** A second box with the same key *)

Section SecondBox.
Context {P : Provider} {T : Type} (E : Encoder T).

Lemma SecretBox_combined_opens p nonce_arg k st1 st2 :
  secretbox_opens_sealed P -> encoder_exact E ->
  holds_key st1 k -> holds_key st2 k ->
  (forall n, nonce_arg = Some n -> length n = 24) ->
  exists msg st1',
    SecretBox.encrypt p nonce_arg E st1 = (Ok msg, st1') /\
    fst (SecretBox.decrypt (combined msg) None E st2) = Ok p.
Proof.
  intros Hrt Hexact [Hk1 Hlen] [Hk2 _] Hnonce.
  assert (exists n st0, length n = 24 /\ attrs st0 = attrs st1 /\
            SecretBox.encrypt p nonce_arg E st1 = SecretBox.encrypt p (Some n) E st0)
    as (n & st0 & Hn & Hattrs & ->).
  { destruct nonce_arg as [n|].
    - exists n, st1. auto.
    - exists (map (entropy st1) (seq (drawn st1) 24)),
        (advanced 24 (logged [CallRandom 24] st1)).
      rewrite length_map, length_seq. auto. }
  destruct (Hrt p n k Hn Hlen) as (c & Hseal & Hopen).
  rewrite SecretBox_encrypt_explicit, Hattrs, Hk1, Hseal by done.
  eexists _, _. split; [reflexivity|]. cbn [combined message_of].
  rewrite (SecretBox_decrypt_combined _ _ (n ++ c)) by apply Hexact.
  rewrite <- Hn, take_app_length, drop_app_length, Hn.
  unfold secretbox_open_checked. by rewrite decide_True, Hk2.
Qed.

Lemma Aead_combined_opens p aad nonce_arg k st1 st2 :
  aead_opens_sealed P -> encoder_exact E ->
  holds_key st1 k -> holds_key st2 k ->
  (forall n, nonce_arg = Some n -> length n = 24) ->
  exists msg st1',
    Aead.encrypt p aad nonce_arg E st1 = (Ok msg, st1') /\
    fst (Aead.decrypt (combined msg) aad None E st2) = Ok p.
Proof.
  intros Hrt Hexact [Hk1 Hlen] [Hk2 _] Hnonce.
  assert (exists n st0, length n = 24 /\ attrs st0 = attrs st1 /\
            Aead.encrypt p aad nonce_arg E st1 = Aead.encrypt p aad (Some n) E st0)
    as (n & st0 & Hn & Hattrs & ->).
  { destruct nonce_arg as [n|].
    - exists n, st1. auto.
    - exists (map (entropy st1) (seq (drawn st1) 24)),
        (advanced 24 (logged [CallRandom 24] st1)).
      rewrite length_map, length_seq. auto. }
  destruct (Hrt p aad n k Hn Hlen) as (c & Hseal & Hopen).
  rewrite Aead_encrypt_explicit, Hattrs, Hk1, Hseal by done.
  eexists _, _. split; [reflexivity|]. cbn [combined message_of].
  rewrite (Aead_decrypt_combined _ _ _ (n ++ c)) by apply Hexact.
  rewrite <- Hn, take_app_length, drop_app_length, Hn.
  unfold aead_decrypt_checked. by rewrite decide_True, Hk2.
Qed.
End SecondBox.

(** X10: The bytes [__bytes__] returns for a box are a key for a second one:
    encoded with any exact encoder and given to the constructor with that
    encoder, on a new object or on one that held another key, they make a box
    that decrypts the combined form of what the first box encrypts, for
    [SecretBox] and for [Aead], and each class accepts the key bytes of the
    other. *)
Theorem a_box_built_from_the_key_bytes_opens_the_messages (P : Provider) :
  secretbox_opens_sealed P -> aead_opens_sealed P ->
  forall T (E : Encoder T) Tk (Ek : Encoder Tk),
    encoder_exact E -> encoder_exact Ek ->
  forall (k p aad : bytes) (nonce_arg : option bytes) (st1 st0 : state),
    holds_key st1 k ->
    (forall n, nonce_arg = Some n -> length n = 24) ->
    SecretBox.__bytes__ st1 = (Ok (PyBytes k), st1) /\
    Aead.__bytes__ st1 = (Ok (PyBytes k), st1) /\
    exists st2,
      SecretBox.__init__ (encode Ek k) Ek st0 = (Ok tt, st2) /\
      Aead.__init__ (encode Ek k) Ek st0 = (Ok tt, st2) /\
      (exists msg st1',
          SecretBox.encrypt p nonce_arg E st1 = (Ok msg, st1') /\
          fst (SecretBox.decrypt (combined msg) None E st2) = Ok p) /\
      (exists msg st1',
          Aead.encrypt p aad nonce_arg E st1 = (Ok msg, st1') /\
          fst (Aead.decrypt (combined msg) aad None E st2) = Ok p).
Proof.
  intros Hsb Haead T E Tk Ek HE HEk k p aad nonce_arg st1 st0 Hkey Hnonce.
  pose proof Hkey as [Hk Hlen].
  split; [unfold SecretBox.__bytes__, getattr; by rewrite Hk|].
  split; [unfold Aead.__bytes__, getattr; by rewrite Hk|].
  exists (snd (setattr "_key" (PyBytes k) (logged [CallDecode] st0))).
  rewrite (SecretBox_init_bytes _ _ _ k), (Aead_init_bytes _ _ _ k) by apply HEk.
  rewrite decide_True by done.
  assert (holds_key (snd (setattr "_key" (PyBytes k) (logged [CallDecode] st0))) k)
    as Hkey2 by (split; [apply lookup_insert_eq|exact Hlen]).
  split; [done|]. split; [done|]. split.
  - by apply SecretBox_combined_opens with k.
  - by apply Aead_combined_opens with k.
Qed.

(** The key of the concrete scenario, passed through the mirror encoder to a
    second box; the message is the test message with a drawn nonce. *)
Lemma a_box_built_from_the_key_bytes_witness :
  exists st2 msg st1',
    Aead.__init__ (mirror_encode (zeros 32)) MirrorEncoder (new_object counting_source)
      = (Ok tt, st2) /\
    Aead.encrypt (P:=model_provider) test_message header None RawEncoder zero_key_box
      = (Ok msg, st1') /\
    fst (Aead.decrypt (P:=model_provider) (combined msg) header None RawEncoder st2)
      = Ok test_message.
Proof.
  assert (forall n : bytes, @None bytes = Some n -> length n = 24) as Hnone
    by (intros n Hn; discriminate Hn).
  destruct (a_box_built_from_the_key_bytes_opens_the_messages model_provider
              model_provider_secretbox model_provider_aead
              pyobj RawEncoder pyobj MirrorEncoder RawEncoder_exact MirrorEncoder_exact
              (zeros 32) test_message header None zero_key_box
              (new_object counting_source) zero_key_box_holds_key Hnone)
    as (_ & _ & st2 & _ & Hinit & _ & msg & st1' & Henc & Hdec).
  exists st2, msg, st1'. auto.
Defined.
